(** * MongoBinaryDownloadUrl: download URL and archive name of a MongoDB build

    A shallow embedding of [src/util/MongoBinaryDownloadUrl.js] and the
    properties of its archive-name and URL computation.

    Conventions of the embedding.
    - A JavaScript string is a [string]; one [ascii] stands for one UTF-16
      code unit, so the strings covered are those whose code units are
      below 256.
    - [undefined] (a missing [release], a missing [os], a missing [ssl]) is
      [None].
    - A [throw] is the [Throw] constructor of [result]; state changes made
      before the throw stay.
    - The result of [parseFloat] is an IEEE 754 binary64 value
      ([spec_float] at precision 53), the result of [parseInt] the integer
      it denotes before conversion to binary64 ([None] is NaN). *)

From Stdlib Require Import Bool Ascii String List ZArith Lia.
From Stdlib Require Import Floats.SpecFloat.
Import ListNotations.

Local Open Scope string_scope.
Local Open Scope Z_scope.

(** ** The fragment of the JavaScript runtime the module uses *)

Module Js.

(** Thrown values: [new Error(message)], the [TypeError] of a property
    access on [undefined], and any other value a promise rejects with. *)
Inductive exn : Type :=
| Error (message : string)
| TypeError
| Rejection (reason : string).

Inductive result (A : Type) : Type :=
| Ok (value : A)
| Throw (e : exn).
Arguments Ok {A} value.
Arguments Throw {A} e.

(** [ToString] of an optional string: [undefined] prints as its name. *)
Definition ToString (v : option string) : string :=
  match v with
  | Some s => s
  | None => "undefined"
  end.

(** Truthiness of an optional string: [undefined] and the empty string are falsy. *)
Definition truthy (v : option string) : bool :=
  match v with
  | Some (String _ _) => true
  | _ => false
  end.

(** [a === b] where [a] may be [undefined] and [b] is a string. *)
Definition strict_eq (a : option string) (b : string) : bool :=
  match a with
  | Some s => String.eqb s b
  | None => false
  end.

(** *** Characters *)

Definition code (c : ascii) : N := N_of_ascii c.

(** [StrWhiteSpaceChar] below code unit 256: TAB, LF, VT, FF, CR, SP and
    NBSP. *)
Definition isWhiteSpace (c : ascii) : bool :=
  let n := code c in
  (N.leb 9 n && N.leb n 13) || N.eqb n 32 || N.eqb n 160.

Definition isDigit (c : ascii) : bool :=
  let n := code c in N.leb 48 n && N.leb n 57.

Definition digitValue (c : ascii) : Z := Z.of_N (code c) - 48.

(** Case folding of the letters A to Z. A pattern of ASCII characters
    under the [i] flag matches no code unit outside ASCII. *)
Definition toLowerAscii (c : ascii) : ascii :=
  let n := code c in
  if N.leb 65 n && N.leb n 90 then ascii_of_N (n + 32) else c.

(** *** Strings *)

Fixpoint trimStart (s : string) : string :=
  match s with
  | String c rest => if isWhiteSpace c then trimStart rest else s
  | EmptyString => s
  end.

(** The longest prefix of decimal digits, and what follows it. *)
Fixpoint spanDigits (s : string) : string * string :=
  match s with
  | String c rest =>
      if isDigit c
      then let '(ds, tl) := spanDigits rest in (String c ds, tl)
      else (EmptyString, s)
  | EmptyString => (EmptyString, EmptyString)
  end.

Fixpoint digitsValueFrom (acc : Z) (ds : string) : Z :=
  match ds with
  | String c rest => digitsValueFrom (10 * acc + digitValue c) rest
  | EmptyString => acc
  end.

Definition digitsValue (ds : string) : Z := digitsValueFrom 0 ds.

(** An optional sign: whether it is [-], and what follows it. *)
Definition spanSign (s : string) : bool * string :=
  match s with
  | String "-" rest => (true, rest)
  | String "+" rest => (false, rest)
  | _ => (false, s)
  end.

Definition isEmpty (s : string) : bool :=
  match s with
  | EmptyString => true
  | String _ _ => false
  end.

(** [/^p/.test(s)] for a literal [p]. *)
Definition startsWith (p s : string) : bool := String.prefix p s.

Fixpoint startsWithIgnoreCase (p s : string) : bool :=
  match p, s with
  | EmptyString, _ => true
  | String a p', String b s' =>
      Ascii.eqb (toLowerAscii a) (toLowerAscii b) && startsWithIgnoreCase p' s'
  | String _ _, EmptyString => false
  end.

(** [/p/i.test(s)] for a literal [p] of ASCII characters. *)
Fixpoint testIgnoreCase (p s : string) : bool :=
  startsWithIgnoreCase p s ||
  match s with
  | String _ rest => testIgnoreCase p rest
  | EmptyString => false
  end.

(** [s.split('.')[0]]: what stands before the first dot. *)
Fixpoint beforeFirstDot (s : string) : string :=
  match s with
  | String "." _ => EmptyString
  | String c rest => String c (beforeFirstDot rest)
  | EmptyString => EmptyString
  end.

(** *** Numbers *)

(** [parseInt(s, 10)]: leading white space, an optional sign, then the
    longest run of digits; NaN ([None]) when there is no digit. The
    binary64 result compares with the small integers of this module as
    the integer itself does. *)
Definition parseInt (input : string) : option Z :=
  let '(neg, s) := spanSign (trimStart input) in
  let '(ds, _) := spanDigits s in
  if isEmpty ds then None
  else Some (if neg then - digitsValue ds else digitsValue ds).

Definition number : Type := spec_float.

Definition prec : Z := 53.
Definition emax : Z := 1024.

Definition NaN : number := S754_nan.

(** The binary64 value nearest to [m * 10 ^ e] for [0 <= m], ties to
    even, with the sign [neg]. *)
Definition decimalToNumber (neg : bool) (m e : Z) : number :=
  match m with
  | Z0 => S754_zero neg
  | Zpos _ =>
      if 0 <=? e
      then binary_normalize prec emax (if neg then - (m * 10 ^ e) else m * 10 ^ e) 0 neg
      else
        let '(q, e', l) := SFdiv_core_binary prec emax m 0 (10 ^ (- e)) 0 in
        binary_round_aux prec emax neg q e' l
  | Zneg _ => NaN
  end.

(** The exponent part [e], [e+] or [e-] followed by digits; it counts
    only when a digit follows. *)
Definition exponentPart (s : string) : Z :=
  match s with
  | String c rest =>
      if Ascii.eqb c "e" || Ascii.eqb c "E"
      then
        let '(neg, r) := spanSign rest in
        let '(ds, _) := spanDigits r in
        if isEmpty ds then 0
        else if neg then - digitsValue ds else digitsValue ds
      else 0
  | EmptyString => 0
  end.

(** [parseFloat(s)]: the longest prefix of the trimmed string that is a
    [StrDecimalLiteral]. *)
Definition parseFloat (input : string) : number :=
  let '(neg, s) := spanSign (trimStart input) in
  if startsWith "Infinity" s then S754_infinity neg
  else
    let '(ip, s1) := spanDigits s in
    let '(fp, s2) :=
      match s1 with
      | String "." rest => spanDigits rest
      | _ => (EmptyString, s1)
      end in
    if isEmpty ip && isEmpty fp then NaN
    else
      decimalToNumber neg (digitsValue (ip ++ fp))
        (exponentPart s2 - Z.of_nat (String.length fp)).

(** A decimal literal of the source text, [m * 10 ^ e]. *)
Definition literal (m e : Z) : number := decimalToNumber false m e.

(** [a >= b] and [a < b] on numbers; false when either is NaN. *)
Definition ge (a b : number) : bool := SFleb b a.
Definition lt (a b : number) : bool := SFltb a b.

End Js.

Import Js.

(** ** Data model *)

(** [type OS = { dist: string, release?: string }], the result of getos. *)
Record OS : Type := mkOS {
  dist : string;
  release : option string
}.

(** [MongoBinaryDownloadUrlOpts], the argument of the constructor. *)
Record MongoBinaryDownloadUrlOpts : Type := mkOpts {
  opts_version : string;
  opts_platform : string;
  opts_arch : string;
  opts_ssl : option bool;
  opts_os : option OS
}.

(** The fields of an instance of [class MongoBinaryDownloadUrl]. *)
Record MongoBinaryDownloadUrl : Type := mkInstance {
  platform : string;
  arch : string;
  ssl : option bool;
  version : string;
  os : option OS
}.

(** What lies outside the instance: the lines written by [console.warn],
    and the getos package, which answers its [n]-th call with
    [getos_reply n]. *)
Record Host : Type := mkHost {
  console : list string;
  getos_calls : nat;
  getos_reply : nat -> result OS
}.

Record State : Type := mkState {
  this : MongoBinaryDownloadUrl;
  host : Host
}.

(** A method body: it reads and writes the instance and the host, and
    returns or throws. An [await] is run to completion in place, so
    calls are sequential. *)
Definition Method (A : Type) : Type := State -> result A * State.

Definition ret {A : Type} (a : A) : Method A := fun st => (Ok a, st).

Definition throw {A : Type} (e : exn) : Method A := fun st => (Throw e, st).

Definition bind {A B : Type} (m : Method A) (k : A -> Method B) : Method B :=
  fun st =>
    match m st with
    | (Ok a, st') => k a st'
    | (Throw e, st') => (Throw e, st')
    end.

Declare Scope method_scope.
Delimit Scope method_scope with method.
Notation "x <- m ;; k" := (bind m (fun x => k))
  (at level 61, m at next level, right associativity) : method_scope.
Notation "m ;; k" := (bind m (fun _ => k))
  (at level 61, right associativity) : method_scope.
Local Open Scope method_scope.

(** Reading [this]. *)
Definition self : Method MongoBinaryDownloadUrl := fun st => (Ok (this st), st).

(** [this.os = o], the only assignment to a field outside the
    constructor. *)
Definition set_os (o : OS) : Method unit :=
  fun st =>
    let t := this st in
    (Ok tt,
     mkState (mkInstance (platform t) (arch t) (ssl t) (version t) (Some o))
             (host st)).

(** [console.warn(line)]. *)
Definition console_warn (line : string) : Method unit :=
  fun st =>
    let h := host st in
    (Ok tt,
     mkState (this st)
             (mkHost (console h ++ [line]) (getos_calls h) (getos_reply h))).

(** ** The methods of the class, in the order of the source *)

Definition DOWNLOAD_URI : string := "https://downloads.mongodb.org".

(** [if (this.ssl)]: [undefined] and [false] are falsy. *)
Definition ssl_set (v : option bool) : bool :=
  match v with
  | Some b => b
  | None => false
  end.

Definition getArchiveType (t : MongoBinaryDownloadUrl) : string :=
  if String.eqb (platform t) "win32" then "zip"
  else if String.eqb (platform t) "src" then "tar.gz"
  else "tgz".

(** [await this.getos()]: one call of the getos package; an error it
    reports rejects the promise, which the [await] rethrows. *)
Definition getos : Method OS :=
  fun st =>
    let h := host st in
    (getos_reply h (getos_calls h),
     mkState (this st) (mkHost (console h) (S (getos_calls h)) (getos_reply h))).

Definition getDebianVersionString (o : OS) : string :=
  let name := "debian" in
  let release := parseFloat (ToString (release o)) in
  if ge release (literal 81 (-1)) then name ++ "81"
  else if ge release (literal 71 (-1)) then name ++ "71"
  else name.

Definition int_gt (v : option Z) (n : Z) : bool :=
  match v with Some z => n <? z | None => false end.
Definition int_lt (v : option Z) (n : Z) : bool :=
  match v with Some z => z <? n | None => false end.
Definition int_ge (v : option Z) (n : Z) : bool :=
  match v with Some z => n <=? z | None => false end.
Definition int_eq (v : option Z) (n : Z) : bool :=
  match v with Some z => z =? n | None => false end.

Definition getFedoraVersionString (o : OS) : string :=
  let name := "rhel" in
  let fedoraVer := parseInt (ToString (release o)) in
  if int_gt fedoraVer 18 then name ++ "70"
  else if int_lt fedoraVer 19 && int_ge fedoraVer 12 then name ++ "62"
  else if int_lt fedoraVer 12 && int_ge fedoraVer 6 then name ++ "55"
  else name.

Definition getRhelVersionString (o : OS) : string :=
  let name := "rhel" in
  if truthy (release o) then
    let release := ToString (release o) in
    if startsWith "7" release then name ++ "70"
    else if startsWith "6" release then name ++ "62"
    else if startsWith "5" release then name ++ "55"
    else name
  else name.

Definition getElementaryOSVersionString (o : OS) : string := "ubuntu1404".

Definition getMintVersionString (o : OS) : string := "ubuntu1404".

Definition getLegacyVersionString (o : OS) : string := EmptyString.

(** [s.match(/(^11|^12)/)]: the matched text, or [None] for [null]. *)
Definition match_11_or_12 (s : string) : option string :=
  if startsWith "11" s then Some "11"
  else if startsWith "12" s then Some "12"
  else None.

(** [os.release.match] is a property access on [os.release]: a
    [TypeError] when the release is [undefined]. *)
Definition getSuseVersionString (o : OS) : result string :=
  match release o with
  | None => Throw TypeError
  | Some r =>
      let release := match_11_or_12 r in
      if truthy release then Ok ("suse" ++ ToString release)
      else Ok EmptyString
  end.

Definition getUbuntuVersionString (o : OS) : string :=
  let name := "ubuntu" in
  let ubuntuVer0 : option string :=
    if truthy (release o) then Some (beforeFirstDot (ToString (release o)))
    else None in
  let majorVer := parseInt (ToString ubuntuVer0) in
  if strict_eq (release o) "12.04" then name ++ "1204"
  else if strict_eq (release o) "14.04" then name ++ "1404"
  else if strict_eq (release o) "14.10" then name ++ "1410-clang"
  else if int_eq majorVer 14 then name ++ "1404"
  else if strict_eq (release o) "16.04" then name ++ "1604"
  else if int_eq majorVer 16 then name ++ "1604"
  else name ++ "1404".

Definition getLinuxOSVersionString (o : OS) : Method string :=
  if testIgnoreCase "ubuntu" (dist o) then
    ret (getUbuntuVersionString o)
  else if testIgnoreCase "elementary OS" (dist o) then
    ret (getElementaryOSVersionString o)
  else if testIgnoreCase "suse" (dist o) then
    match getSuseVersionString o with
    | Ok s => ret s
    | Throw e => throw e
    end
  else if testIgnoreCase "rhel" (dist o) || testIgnoreCase "centos" (dist o)
          || testIgnoreCase "scientific" (dist o) then
    ret (getRhelVersionString o)
  else if testIgnoreCase "fedora" (dist o) then
    ret (getFedoraVersionString o)
  else if testIgnoreCase "debian" (dist o) then
    ret (getDebianVersionString o)
  else if testIgnoreCase "mint" (dist o) then
    ret (getMintVersionString o)
  else
    console_warn ("Unknown linux distro " ++ dist o
                  ++ ", falling back to legacy MongoDB build") ;;
    ret (getLegacyVersionString o).

(** The statement [if (!this.os) this.os = await this.getos();] of
    [getArchiveName]. *)
Definition load_os : Method unit :=
  t <- self ;;
  match os t with
  | None => o <- getos ;; set_os o
  | Some _ => ret tt
  end.

Definition getArchiveName : Method string :=
  t <- self ;;
  let name := "mongodb-" ++ platform t in
  let name := if ssl_set (ssl t) then name ++ "-ssl" else name in
  let name :=
    if negb (String.eqb (platform t) "src") then name ++ ("-" ++ arch t)
    else name in
  osString <-
    (if String.eqb (platform t) "linux" && negb (String.eqb (arch t) "i686")
     then
       load_os ;;
       t <- self ;;
       match os t with
       | Some o => s <- getLinuxOSVersionString o ;; ret (Some s)
       | None => throw TypeError
       end
     else ret None) ;;
  let name :=
    if truthy osString then name ++ ("-" ++ ToString osString) else name in
  t <- self ;;
  if negb (String.eqb (platform t) "src")
  then ret (name ++ ("-" ++ version t ++ "." ++ getArchiveType t))
  else ret (name ++ ("-r" ++ version t ++ "." ++ getArchiveType t)).

Definition getDownloadUrl : Method string :=
  archive <- getArchiveName ;;
  t <- self ;;
  ret (DOWNLOAD_URI ++ "/" ++ platform t ++ "/" ++ archive).

(** [os && os.dist === 'Raspbian'] *)
Definition isRaspbian (o : option OS) : bool :=
  match o with
  | Some d => String.eqb (dist d) "Raspbian"
  | None => false
  end.

Definition translatePlatform (platform : string) (o : option OS) : result string :=
  if isRaspbian o then Ok "src"
  else if String.eqb platform "darwin" then Ok "osx"
  else if String.eqb platform "win32" then Ok "win32"
  else if String.eqb platform "linux" then Ok "linux"
  else if String.eqb platform "elementary OS" then Ok "linux"
  else if String.eqb platform "sunos" then Ok "sunos5"
  else Throw (Error ("unsupported OS " ++ platform)).

Definition translateArch (arch mongoPlatform : string) : result string :=
  if String.eqb arch "ia32" then
    if String.eqb mongoPlatform "linux" then Ok "i686"
    else if String.eqb mongoPlatform "win32" then Ok "i386"
    else Throw (Error "unsupported architecture")
  else if String.eqb arch "x64" then Ok "x86_64"
  else Throw (Error "unsupported architecture, ia32 and x64 are the only valid options").

(** [new MongoBinaryDownloadUrl(opts)] *)
Definition constructor (opts : MongoBinaryDownloadUrlOpts)
  : result MongoBinaryDownloadUrl :=
  match translatePlatform (opts_platform opts) (opts_os opts) with
  | Throw e => Throw e
  | Ok p =>
      match translateArch (opts_arch opts) p with
      | Throw e => Throw e
      | Ok a => Ok (mkInstance p a (opts_ssl opts) (opts_version opts) (opts_os opts))
      end
  end.

(** [new MongoBinaryDownloadUrl(opts).m()] for a method [m]: nothing runs
    on the host when the constructor throws. *)
Definition construct_and_call {A : Type} (opts : MongoBinaryDownloadUrlOpts)
    (m : Method A) (h : Host) : result A * Host :=
  match constructor opts with
  | Throw e => (Throw e, h)
  | Ok t => let '(r, st) := m (mkState t h) in (r, host st)
  end.

(** ** getArchiveName around its await

    [getArchiveName] has one [await], at [await this.getos()]. A call runs
    up to it without interruption; there it has called getos and waits for
    the answer, and other calls may run before it goes on. A call that
    does not reach the [await] runs to its end. *)

(** Where a call of [getArchiveName] stands: settled, or waiting for the
    answer to its call of getos, with the [name] it has built so far. *)
Inductive Progress : Type :=
| Settled (r : result string)
| AwaitingGetos (name : string) (ticket : nat).

(** From [if (osString)] to [return name]. *)
Definition getArchiveName_finish (name : string) (osString : option string)
  : Method string :=
  let name :=
    if truthy osString then name ++ ("-" ++ ToString osString) else name in
  t <- self ;;
  if negb (String.eqb (platform t) "src")
  then ret (name ++ ("-" ++ version t ++ "." ++ getArchiveType t))
  else ret (name ++ ("-r" ++ version t ++ "." ++ getArchiveType t)).

(** From [osString = this.getLinuxOSVersionString(this.os)] on. *)
Definition getArchiveName_qualify (name : string) : Method string :=
  t <- self ;;
  match os t with
  | Some o => s <- getLinuxOSVersionString o ;; getArchiveName_finish name (Some s)
  | None => throw TypeError
  end.

(** The call up to its [await], or to its end when it reaches none. At
    the [await] getos has been called: the call holds the number of that
    call of getos. *)
Definition getArchiveName_start (st : State) : Progress * State :=
  let t := this st in
  let name := "mongodb-" ++ platform t in
  let name := if ssl_set (ssl t) then name ++ "-ssl" else name in
  let name :=
    if negb (String.eqb (platform t) "src") then name ++ ("-" ++ arch t)
    else name in
  if String.eqb (platform t) "linux" && negb (String.eqb (arch t) "i686")
  then
    match os t with
    | None =>
        let h := host st in
        (AwaitingGetos name (getos_calls h),
         mkState t (mkHost (console h) (S (getos_calls h)) (getos_reply h)))
    | Some _ =>
        let '(r, st') := getArchiveName_qualify name st in (Settled r, st')
    end
  else
    let '(r, st') := getArchiveName_finish name None st in (Settled r, st').

(** The call from its [await] on, once getos has answered: the [await]
    rethrows an error, and a descriptor is assigned to [this.os]. *)
Definition getArchiveName_resume (name : string) (ticket : nat) : Method string :=
  fun st =>
    match getos_reply (host st) ticket with
    | Ok o => (set_os o ;; getArchiveName_qualify name) st
    | Throw e => (Throw e, st)
    end.

(** A call that goes on as soon as getos has answered. *)
Definition getArchiveName_uninterrupted (st : State) : result string * State :=
  match getArchiveName_start st with
  | (Settled r, st') => (r, st')
  | (AwaitingGetos name ticket, st') => getArchiveName_resume name ticket st'
  end.

(** Two calls on one instance, the second started while the first waits
    for getos: both start, then both go on, in the order of their
    starts. The results of the two calls and the final state. *)
Definition overlapping_calls (st : State)
  : option (result string * result string) * State :=
  match getArchiveName_start st with
  | (AwaitingGetos name1 ticket1, st1) =>
      match getArchiveName_start st1 with
      | (AwaitingGetos name2 ticket2, st2) =>
          let '(r1, st3) := getArchiveName_resume name1 ticket1 st2 in
          let '(r2, st4) := getArchiveName_resume name2 ticket2 st3 in
          (Some (r1, r2), st4)
      | (Settled _, st2) => (None, st2)
      end
  | (Settled _, st1) => (None, st1)
  end.

(** ** Vocabulary of the properties *)

(** The families of distributions [getLinuxOSVersionString] tells apart. *)
Inductive Distribution : Type :=
| Ubuntu | ElementaryOS | Suse | Rhel | Fedora | Debian | Mint | Unknown.

(** The names each family is recognised by, in the order they are tried:
    the first family with a name occurring in [dist], letter case
    ignored, wins. *)
Definition precedence : list (list string * Distribution) :=
  [ (["ubuntu"], Ubuntu);
    (["elementary OS"], ElementaryOS);
    (["suse"], Suse);
    (["rhel"; "centos"; "scientific"], Rhel);
    (["fedora"], Fedora);
    (["debian"], Debian);
    (["mint"], Mint) ].

Definition matches_any (names : list string) (d : string) : bool :=
  existsb (fun p => testIgnoreCase p d) names.

Definition classify (d : string) : Distribution :=
  match find (fun entry => matches_any (fst entry) d) precedence with
  | Some entry => snd entry
  | None => Unknown
  end.

(** A RHEL release that selects no build: missing, or beginning with
    none of 7, 6 and 5. *)
Definition rhel_release_unmatched (r : option string) : Prop :=
  match r with
  | None => True
  | Some s =>
      startsWith "7" s = false /\ startsWith "6" s = false
      /\ startsWith "5" s = false
  end.

(** A Fedora release that selects no build: it does not parse, or parses
    to an integer in none of the ranges above 18, 12 to 18 and 6 to 11. *)
Definition fedora_release_outside (r : option string) : Prop :=
  match parseInt (ToString r) with
  | None => True
  | Some z => ~ 18 < z /\ ~ (12 <= z <= 18) /\ ~ (6 <= z <= 11)
  end.

(** The major version of a release: what stands before its first dot,
    parsed as an integer. *)
Definition major_version (r : option string) : option Z :=
  match r with
  | Some s => parseInt (beforeFirstDot s)
  | None => None
  end.

(** The archive name in the words of its description: the platform, the
    ssl marker, the architecture, the qualifier when one was computed and
    is not empty, then the version and the extension. *)
Definition archive_name (platform : string) (ssl : bool) (arch : string)
    (qualifier : option string) (version : string) : string :=
  "mongodb-" ++ platform
  ++ (if ssl then "-ssl" else EmptyString)
  ++ (if String.eqb platform "src" then EmptyString else "-" ++ arch)
  ++ (match qualifier with
      | Some q => if isEmpty q then EmptyString else "-" ++ q
      | None => EmptyString
      end)
  ++ (if String.eqb platform "src" then "-r" ++ version ++ ".tar.gz"
      else "-" ++ version ++ "."
           ++ (if String.eqb platform "win32" then "zip" else "tgz")).

(** The line [console.warn] writes for an unknown distribution. *)
Definition unknown_distro_warning (d : string) : string :=
  "Unknown linux distro " ++ d ++ ", falling back to legacy MongoDB build".

Definition warned (line : string) (st : State) : State :=
  snd (console_warn line st).

(** Calls made on one instance, each completed before the next starts. *)
Inductive Call : Type :=
| CallGetArchiveName
| CallGetDownloadUrl.

Definition call (c : Call) (st : State) : State :=
  match c with
  | CallGetArchiveName => snd (getArchiveName st)
  | CallGetDownloadUrl => snd (getDownloadUrl st)
  end.

Definition run (cs : list Call) (st : State) : State :=
  fold_left (fun s c => call c s) cs st.

Definition is_ok {A : Type} (r : result A) : bool :=
  match r with
  | Ok _ => true
  | Throw _ => false
  end.

(** How many of the [n] calls of getos numbered from [from] on were
    answered with a descriptor. *)
Definition resolved (h : Host) (from n : nat) : nat :=
  List.length (filter is_ok (map (getos_reply h) (seq from n))).

(** Whether the Linux qualifier is computed. *)
Definition qualified (t : MongoBinaryDownloadUrl) : bool :=
  String.eqb (platform t) "linux" && negb (String.eqb (arch t) "i686").

(** The fields fixed by the constructor. *)
Definition same_settings (a b : MongoBinaryDownloadUrl) : Prop :=
  platform a = platform b /\ arch a = arch b /\ ssl a = ssl b
  /\ version a = version b.

(** What one completed call does to the instance and to getos: nothing,
    or one call of getos, whose descriptor is stored when there is one. *)
Definition step (st st' : State) : Prop :=
  same_settings (this st) (this st')
  /\ getos_reply (host st') = getos_reply (host st)
  /\ ((os (this st') = os (this st)
       /\ getos_calls (host st') = getos_calls (host st))
      \/ (os (this st) = None
          /\ getos_calls (host st') = S (getos_calls (host st))
          /\ exists o, getos_reply (host st) (getos_calls (host st)) = Ok o
                       /\ os (this st') = Some o)
      \/ (os (this st) = None
          /\ getos_calls (host st') = S (getos_calls (host st))
          /\ os (this st') = None
          /\ exists e, getos_reply (host st) (getos_calls (host st)) = Throw e)).

(** What a sequence of completed calls does: the settings stay, getos is
    called some more times, and the descriptor either stays as it was with
    no call of getos answered, or was missing and is now the one answer
    getos gave, at its last call. *)
Definition evolves (st st' : State) : Prop :=
  same_settings (this st) (this st')
  /\ getos_reply (host st') = getos_reply (host st)
  /\ (getos_calls (host st) <= getos_calls (host st'))%nat
  /\ ((os (this st') = os (this st)
       /\ resolved (host st) (getos_calls (host st))
            (getos_calls (host st') - getos_calls (host st)) = 0%nat
       /\ (os (this st) <> None ->
           getos_calls (host st') = getos_calls (host st)))
      \/ (os (this st) = None
          /\ resolved (host st) (getos_calls (host st))
               (getos_calls (host st') - getos_calls (host st)) = 1%nat
          /\ exists k o,
               getos_calls (host st') = S k
               /\ (getos_calls (host st) <= k)%nat
               /\ getos_reply (host st) k = Ok o
               /\ os (this st') = Some o)).

(** The same configuration without its descriptor. *)
Definition without_os (opts : MongoBinaryDownloadUrlOpts)
  : MongoBinaryDownloadUrlOpts :=
  mkOpts (opts_version opts) (opts_platform opts) (opts_arch opts)
         (opts_ssl opts) None.

(** The names the cascade looks for. *)
Definition known_names : list string :=
  ["ubuntu"; "elementary OS"; "suse"; "rhel"; "centos"; "scientific";
   "fedora"; "debian"; "mint"].

(** *** Vocabulary of the further properties *)

(** A string with its letters A to Z in lower case. *)
Fixpoint fold_case (s : string) : string :=
  match s with
  | String c rest => String (toLowerAscii c) (fold_case rest)
  | EmptyString => EmptyString
  end.

(** Every qualifier the distribution rules can produce. *)
Definition qualifiers : list string :=
  ["ubuntu1204"; "ubuntu1404"; "ubuntu1410-clang"; "ubuntu1604";
   "suse11"; "suse12";
   "rhel"; "rhel55"; "rhel62"; "rhel70";
   "debian"; "debian71"; "debian81";
   EmptyString].

(** The instance [t] once [this.os = o] has run. *)
Definition with_os (t : MongoBinaryDownloadUrl) (o : OS) : MongoBinaryDownloadUrl :=
  mkInstance (platform t) (arch t) (ssl t) (version t) (Some o).

(** The host once getos has been called one more time. *)
Definition probed (h : Host) : Host :=
  mkHost (console h) (S (getos_calls h)) (getos_reply h).

(** The ssl segment of an archive name. *)
Definition ssl_marker (v : option bool) : string :=
  if ssl_set v then "-ssl" else EmptyString.

(** *** Hosts and configurations of the examples *)

(** A host on which getos always fails. *)
Definition failing_host : Host :=
  mkHost [] 0 (fun _ => Throw (Rejection "getos failed")).

(** A host on which getos always reports [o]. *)
Definition host_reporting (o : OS) : Host :=
  mkHost [] 0 (fun _ => Ok o).

Definition linux_x64 (o : option OS) : MongoBinaryDownloadUrlOpts :=
  mkOpts "4.0.0" "linux" "x64" None o.

(** * Properties *)

(** ** Classification and dispatch *)

(** The cascade of [getLinuxOSVersionString] is the dispatch on the family
    that [classify] finds, in the documented order of precedence. *)
Lemma getLinuxOSVersionString_dispatch (o : OS) (st : State) :
  getLinuxOSVersionString o st =
  match classify (dist o) with
  | Ubuntu => (Ok (getUbuntuVersionString o), st)
  | ElementaryOS => (Ok (getElementaryOSVersionString o), st)
  | Suse =>
      match getSuseVersionString o with
      | Ok s => (Ok s, st)
      | Throw e => (Throw e, st)
      end
  | Rhel => (Ok (getRhelVersionString o), st)
  | Fedora => (Ok (getFedoraVersionString o), st)
  | Debian => (Ok (getDebianVersionString o), st)
  | Mint => (Ok (getMintVersionString o), st)
  | Unknown =>
      (Ok (getLegacyVersionString o),
       warned (unknown_distro_warning (dist o)) st)
  end.
Proof.
  unfold getLinuxOSVersionString, classify, precedence, matches_any.
  cbn [find existsb fst snd].
  repeat rewrite orb_false_r.
  destruct (testIgnoreCase "ubuntu" (dist o)); [reflexivity|].
  destruct (testIgnoreCase "elementary OS" (dist o)); [reflexivity|].
  destruct (testIgnoreCase "suse" (dist o)).
  { destruct (getSuseVersionString o); reflexivity. }
  rewrite orb_assoc.
  destruct (testIgnoreCase "rhel" (dist o) || testIgnoreCase "centos" (dist o)
            || testIgnoreCase "scientific" (dist o)); [reflexivity|].
  destruct (testIgnoreCase "fedora" (dist o)); [reflexivity|].
  destruct (testIgnoreCase "debian" (dist o)); [reflexivity|].
  destruct (testIgnoreCase "mint" (dist o)); reflexivity.
Qed.

(** [classify] finds no family exactly when no name occurs in [dist]. *)
Lemma classify_Unknown_iff (d : string) :
  classify d = Unknown <->
  forall names family, In (names, family) precedence ->
    forall p, In p names -> testIgnoreCase p d = false.
Proof.
  unfold classify.
  destruct (find (fun entry => matches_any (fst entry) d) precedence)
    as [[names family]|] eqn:Hfind.
  - apply find_some in Hfind. destruct Hfind as [Hin Hm]. cbn [fst snd] in *.
    split.
    + intros ->. exfalso.
      unfold precedence in Hin. cbn [In] in Hin.
      repeat (destruct Hin as [Hin|Hin]; [inversion Hin|]); contradiction.
    + intros Hnone. exfalso.
      unfold matches_any in Hm. apply existsb_exists in Hm.
      destruct Hm as [p [Hp Ht]].
      rewrite (Hnone names family Hin p Hp) in Ht. discriminate.
  - split; [|reflexivity]. intros _ names family Hin p Hp.
    pose proof (find_none _ _ Hfind _ Hin) as Hm. cbn [fst] in Hm.
    unfold matches_any in Hm.
    destruct (testIgnoreCase p d) eqn:Ht; [|reflexivity].
    assert (existsb (fun p => testIgnoreCase p d) names = true) as Hex
      by (apply existsb_exists; exists p; split; assumption).
    rewrite Hex in Hm. discriminate.
Qed.

(** ** RHEL and Fedora *)

Lemma getRhelVersionString_unmatched (o : OS) :
  rhel_release_unmatched (release o) -> getRhelVersionString o = "rhel".
Proof.
  unfold rhel_release_unmatched, getRhelVersionString.
  destruct (release o) as [s|]; [|reflexivity].
  intros (H7 & H6 & H5). cbn [ToString].
  destruct (truthy (Some s)); [|reflexivity].
  rewrite H7, H6, H5. reflexivity.
Qed.

Lemma getFedoraVersionString_outside (o : OS) :
  fedora_release_outside (release o) -> getFedoraVersionString o = "rhel".
Proof.
  unfold fedora_release_outside, getFedoraVersionString.
  destruct (parseInt (ToString (release o))) as [z|]; [|reflexivity].
  intros (Hhi & Hmid & Hlo).
  unfold int_gt, int_lt, int_ge.
  destruct (Z.ltb_spec 18 z); [lia|].
  destruct (Z.ltb_spec z 19), (Z.leb_spec 12 z); cbn [andb]; try lia;
    destruct (Z.ltb_spec z 12), (Z.leb_spec 6 z); cbn [andb]; try lia;
    reflexivity.
Qed.

(** C1, as the code has it: for a descriptor classified as
    RHEL/CentOS/Scientific whose release is missing or begins with none of
    7, 6 and 5, and for a descriptor classified as Fedora whose release
    does not parse or parses to an integer outside the ranges above 18,
    12..18 and 6..11, the computed Linux qualifier is the bare string
    "rhel". *)
Theorem unmatched_rhel_fedora_qualifier_is_bare_rhel (o : OS) (st : State) :
  (classify (dist o) = Rhel /\ rhel_release_unmatched (release o)) \/
  (classify (dist o) = Fedora /\ fedora_release_outside (release o)) ->
  getLinuxOSVersionString o st = (Ok "rhel", st).
Proof.
  intros [[Hc Hr]|[Hc Hr]]; rewrite getLinuxOSVersionString_dispatch, Hc.
  - rewrite (getRhelVersionString_unmatched o Hr). reflexivity.
  - rewrite (getFedoraVersionString_outside o Hr). reflexivity.
Qed.

Lemma unmatched_rhel_fedora_qualifier_is_bare_rhel_witness :
  getLinuxOSVersionString (mkOS "CentOS" None) (mkState (mkInstance "linux" "x86_64" None "4.0.0" None) failing_host)
  = (Ok "rhel", mkState (mkInstance "linux" "x86_64" None "4.0.0" None) failing_host)
  /\ getLinuxOSVersionString (mkOS "Fedora" (Some "rawhide")) (mkState (mkInstance "linux" "x86_64" None "4.0.0" None) failing_host)
  = (Ok "rhel", mkState (mkInstance "linux" "x86_64" None "4.0.0" None) failing_host).
Proof.
  split.
  - apply unmatched_rhel_fedora_qualifier_is_bare_rhel.
    left. split; [reflexivity | exact I].
  - apply unmatched_rhel_fedora_qualifier_is_bare_rhel.
    right. split; [reflexivity | exact I].
Defined.

(** C1 as stated fails: a CentOS descriptor without release and a Fedora
    descriptor of release 5 both get the qualifier "rhel", not the empty
    string. *)
Lemma unmatched_rhel_fedora_qualifier_is_not_empty :
  let st := mkState (mkInstance "linux" "x86_64" None "4.0.0" None) failing_host in
  (classify "CentOS" = Rhel
   /\ rhel_release_unmatched None
   /\ fst (getLinuxOSVersionString (mkOS "CentOS" None) st) = Ok "rhel"
   /\ fst (getLinuxOSVersionString (mkOS "CentOS" None) st) <> Ok EmptyString)
  /\
  (classify "Fedora" = Fedora
   /\ fedora_release_outside (Some "5")
   /\ fst (getLinuxOSVersionString (mkOS "Fedora" (Some "5")) st) = Ok "rhel"
   /\ fst (getLinuxOSVersionString (mkOS "Fedora" (Some "5")) st) <> Ok EmptyString).
Proof.
  cbv zeta. split.
  - repeat split; try reflexivity. vm_compute. discriminate.
  - split; [reflexivity|]. split.
    + unfold fedora_release_outside.
      replace (parseInt (ToString (Some "5"))) with (Some 5) by reflexivity.
      lia.
    + split; [reflexivity|]. vm_compute. discriminate.
Qed.

(** ** Suse *)

(** With a release, the Suse rule returns and is as documented. *)
Lemma getSuseVersionString_with_release (d r : string) :
  getSuseVersionString (mkOS d (Some r)) =
  Ok (if startsWith "11" r then "suse11"
      else if startsWith "12" r then "suse12"
      else EmptyString).
Proof.
  unfold getSuseVersionString, match_11_or_12. cbn [release].
  destruct (startsWith "11" r); [reflexivity|].
  destruct (startsWith "12" r); reflexivity.
Qed.

(** C2 fails on the code: for a descriptor classified as Suse that has no
    release, the qualifier computation throws a TypeError, and so does the
    archive name. *)
Theorem suse_without_release_throws :
  classify "SUSE Linux" = Suse
  /\ getSuseVersionString (mkOS "SUSE Linux" None) = Throw TypeError
  /\ construct_and_call (linux_x64 (Some (mkOS "SUSE Linux" None)))
       getArchiveName failing_host
     = (Throw TypeError, failing_host).
Proof. repeat split. Qed.

(** ** Ubuntu *)

(** The major version the code parses is the one of the release: an empty
    release has no first component, and none parses. *)
Lemma ubuntu_majorVer (r : option string) :
  parseInt (ToString (if truthy r then Some (beforeFirstDot (ToString r)) else None))
  = major_version r.
Proof.
  destruct r as [[|c s]|]; reflexivity.
Qed.

Lemma strict_eq_true_iff (a : option string) (b : string) :
  strict_eq a b = true <-> a = Some b.
Proof.
  destruct a as [s|]; cbn [strict_eq].
  - rewrite String.eqb_eq. split; [intros ->; reflexivity | congruence].
  - split; discriminate.
Qed.

Lemma int_eq_true_iff (v : option Z) (n : Z) :
  int_eq v n = true <-> v = Some n.
Proof.
  destruct v as [z|]; cbn [int_eq].
  - rewrite Z.eqb_eq. split; congruence.
  - split; discriminate.
Qed.

(** C3: for a descriptor classified as Ubuntu the qualifier is "ubuntu"
    followed by "1204" for the exact release "12.04", "1404" for exact
    "14.04", "1410-clang" for exact "14.10", "1404" when the part before
    the first dot parses to 14, "1604" for exact "16.04" or major version
    16, and "1404" for any other or missing release; it is never empty. *)
Theorem ubuntu_qualifier (o : OS) (st : State) :
  classify (dist o) = Ubuntu ->
  exists suffix,
    getLinuxOSVersionString o st = (Ok ("ubuntu" ++ suffix), st)
    /\ "ubuntu" ++ suffix <> EmptyString
    /\ (release o = Some "12.04" -> suffix = "1204")
    /\ (release o = Some "14.04" -> suffix = "1404")
    /\ (release o = Some "14.10" -> suffix = "1410-clang")
    /\ (major_version (release o) = Some 14 -> release o <> Some "14.10" ->
        suffix = "1404")
    /\ (release o = Some "16.04" \/ major_version (release o) = Some 16 ->
        suffix = "1604")
    /\ (release o <> Some "12.04" -> release o <> Some "14.04" ->
        release o <> Some "14.10" -> release o <> Some "16.04" ->
        major_version (release o) <> Some 14 ->
        major_version (release o) <> Some 16 ->
        suffix = "1404").
Proof.
  intros Hc. rewrite getLinuxOSVersionString_dispatch, Hc.
  unfold getUbuntuVersionString. rewrite ubuntu_majorVer.
  destruct (strict_eq (release o) "12.04") eqn:E1.
  { apply strict_eq_true_iff in E1. rewrite E1. eexists. split; [reflexivity|].
    repeat split; try discriminate; try reflexivity; try congruence.
    intros [H|H]; discriminate. }
  destruct (strict_eq (release o) "14.04") eqn:E2.
  { apply strict_eq_true_iff in E2. rewrite E2. eexists. split; [reflexivity|].
    repeat split; try discriminate; try reflexivity; try congruence.
    intros [H|H]; discriminate. }
  destruct (strict_eq (release o) "14.10") eqn:E3.
  { apply strict_eq_true_iff in E3. rewrite E3. eexists. split; [reflexivity|].
    repeat split; try discriminate; try reflexivity; try congruence.
    intros [H|H]; discriminate. }
  assert (release o <> Some "12.04") as N1
    by (intros H; apply strict_eq_true_iff in H; congruence).
  assert (release o <> Some "14.04") as N2
    by (intros H; apply strict_eq_true_iff in H; congruence).
  assert (release o <> Some "14.10") as N3
    by (intros H; apply strict_eq_true_iff in H; congruence).
  destruct (int_eq (major_version (release o)) 14) eqn:E4.
  { apply int_eq_true_iff in E4. eexists. split; [reflexivity|].
    repeat split; try discriminate; try reflexivity; try congruence.
    intros [H|H]; [rewrite H in E4; discriminate | congruence]. }
  assert (major_version (release o) <> Some 14) as N4
    by (intros H; apply int_eq_true_iff in H; congruence).
  destruct (strict_eq (release o) "16.04") eqn:E5.
  { apply strict_eq_true_iff in E5. eexists. split; [reflexivity|].
    repeat split; try discriminate; try reflexivity; try congruence. }
  assert (release o <> Some "16.04") as N5
    by (intros H; apply strict_eq_true_iff in H; congruence).
  destruct (int_eq (major_version (release o)) 16) eqn:E6.
  { apply int_eq_true_iff in E6. eexists. split; [reflexivity|].
    repeat split; try discriminate; try reflexivity; try congruence. }
  assert (major_version (release o) <> Some 16) as N6
    by (intros H; apply int_eq_true_iff in H; congruence).
  eexists. split; [reflexivity|].
  repeat split; try discriminate; try reflexivity; try congruence.
  intros [H|H]; congruence.
Qed.

Lemma ubuntu_qualifier_witness :
  exists suffix,
    getLinuxOSVersionString (mkOS "Ubuntu" (Some "16.04"))
      (mkState (mkInstance "linux" "x86_64" None "4.0.0" None) failing_host)
    = (Ok ("ubuntu" ++ suffix),
       mkState (mkInstance "linux" "x86_64" None "4.0.0" None) failing_host)
    /\ suffix = "1604".
Proof.
  destruct (ubuntu_qualifier (mkOS "Ubuntu" (Some "16.04"))
              (mkState (mkInstance "linux" "x86_64" None "4.0.0" None) failing_host)
              eq_refl)
    as (suffix & Hrun & _ & _ & _ & _ & _ & H16 & _).
  exists suffix. split; [exact Hrun | apply H16; left; reflexivity].
Defined.

(** ** Debian *)

Lemma SFcompare_antisym (a b : number) :
  SFcompare a b = option_map CompOpp (SFcompare b a).
Proof.
  destruct a as [sa|sa| |sa ma ea], b as [sb|sb| |sb mb eb]; cbn;
    try reflexivity; try (destruct sa; reflexivity);
    try (destruct sb; reflexivity);
    try (destruct sa, sb; reflexivity).
  destruct sa, sb; try reflexivity; f_equal;
    rewrite (Z.compare_antisym eb ea);
    (destruct (eb ?= ea); cbn; try reflexivity);
    rewrite (Pos.compare_cont_antisym mb ma Eq); cbn;
    rewrite ?CompOpp_involutive; reflexivity.
Qed.

(** [a < b] excludes [a >= b]. *)
Lemma lt_not_ge (a b : number) : lt a b = true -> ge a b = false.
Proof.
  unfold lt, ge, SFltb, SFleb. rewrite (SFcompare_antisym b a).
  destruct (SFcompare a b) as [[| |]|]; cbn; congruence.
Qed.

Lemma SFcompare_defined (a b : number) :
  a <> NaN -> b <> NaN -> SFcompare a b <> None.
Proof.
  unfold NaN.
  destruct a, b; cbn; intros Ha Hb; try discriminate; congruence.
Qed.

Lemma ge_defined (a c : number) : ge a c = true -> a <> NaN.
Proof.
  unfold ge, SFleb, NaN. intros H ->.
  destruct c; discriminate.
Qed.

(** A number that compares with something is, against any [b] other than
    NaN, either at least [b] or below it. *)
Lemma ge_total (a b c : number) :
  ge a c = true -> b <> NaN -> ge a b = false -> lt a b = true.
Proof.
  intros Hc Hb. pose proof (SFcompare_defined a b (ge_defined a c Hc) Hb) as Hd.
  unfold lt, ge, SFltb, SFleb. rewrite (SFcompare_antisym b a).
  destruct (SFcompare a b) as [[| |]|]; cbn; congruence.
Qed.

(** C4: for a descriptor classified as Debian the qualifier is "debian81"
    when the release parses as a float at least 8.1, "debian71" when it
    parses as a float at least 7.1 and below 8.1, and the bare, non-empty
    "debian" otherwise, also when the release is missing or does not
    parse. *)
Theorem debian_qualifier (o : OS) (st : State) :
  classify (dist o) = Debian ->
  exists q,
    getLinuxOSVersionString o st = (Ok q, st)
    /\ q <> EmptyString
    /\ (ge (parseFloat (ToString (release o))) (literal 81 (-1)) = true ->
        q = "debian81")
    /\ (ge (parseFloat (ToString (release o))) (literal 71 (-1)) = true ->
        lt (parseFloat (ToString (release o))) (literal 81 (-1)) = true ->
        q = "debian71")
    /\ (ge (parseFloat (ToString (release o))) (literal 81 (-1)) = false ->
        ~ (ge (parseFloat (ToString (release o))) (literal 71 (-1)) = true
           /\ lt (parseFloat (ToString (release o))) (literal 81 (-1)) = true) ->
        q = "debian")
    /\ (release o = None -> q = "debian")
    /\ (parseFloat (ToString (release o)) = NaN -> q = "debian").
Proof.
  intros Hc. rewrite getLinuxOSVersionString_dispatch, Hc.
  unfold getDebianVersionString.
  set (r := parseFloat (ToString (release o))).
  assert (literal 81 (-1) <> NaN) as H81 by (vm_compute; discriminate).
  assert (ge NaN (literal 81 (-1)) = false) as Hn81 by reflexivity.
  assert (ge NaN (literal 71 (-1)) = false) as Hn71 by reflexivity.
  assert (release o = None -> r = NaN) as Hmissing
    by (intros Hr; unfold r; rewrite Hr; reflexivity).
  destruct (ge r (literal 81 (-1))) eqn:E81.
  { eexists. split; [reflexivity|].
    repeat split; try discriminate; try reflexivity.
    - intros _ Hlt. apply lt_not_ge in Hlt. congruence.
    - intros Hr. rewrite (Hmissing Hr) in E81. congruence.
    - intros Hr. rewrite Hr in E81. congruence. }
  destruct (ge r (literal 71 (-1))) eqn:E71.
  { eexists. split; [reflexivity|].
    repeat split; try discriminate; try reflexivity.
    - intros _ Hno. exfalso. apply Hno. split; [reflexivity|].
      exact (ge_total r _ _ E71 H81 E81).
    - intros Hr. rewrite (Hmissing Hr) in E71. congruence.
    - intros Hr. rewrite Hr in E71. congruence. }
  eexists. split; [reflexivity|].
  repeat split; try discriminate; try reflexivity.
Qed.

Lemma debian_qualifier_witness :
  exists q,
    getLinuxOSVersionString (mkOS "Debian GNU/Linux" (Some "7.11"))
      (mkState (mkInstance "linux" "x86_64" None "4.0.0" None) failing_host)
    = (Ok q, mkState (mkInstance "linux" "x86_64" None "4.0.0" None) failing_host)
    /\ q = "debian71".
Proof.
  destruct (debian_qualifier (mkOS "Debian GNU/Linux" (Some "7.11"))
              (mkState (mkInstance "linux" "x86_64" None "4.0.0" None) failing_host)
              eq_refl)
    as (q & Hrun & _ & _ & H71 & _).
  exists q. split; [exact Hrun | apply H71; reflexivity].
Defined.

(** ** Strings *)

Lemma append_assoc (a b c : string) : (a ++ b) ++ c = a ++ (b ++ c).
Proof.
  induction a as [|x a IH]; cbn [append]; [reflexivity|].
  rewrite IH. reflexivity.
Qed.

Lemma append_empty_r (a : string) : a ++ EmptyString = a.
Proof.
  induction a as [|x a IH]; cbn [append]; [reflexivity|].
  rewrite IH. reflexivity.
Qed.

(** ** What the methods leave unchanged *)

Lemma same_settings_refl (t : MongoBinaryDownloadUrl) : same_settings t t.
Proof. repeat split. Qed.

(** Computing the qualifier touches the console only. *)
Lemma getLinuxOSVersionString_frame (o : OS) (st : State) :
  this (snd (getLinuxOSVersionString o st)) = this st
  /\ getos_calls (host (snd (getLinuxOSVersionString o st))) = getos_calls (host st)
  /\ getos_reply (host (snd (getLinuxOSVersionString o st))) = getos_reply (host st).
Proof.
  rewrite getLinuxOSVersionString_dispatch.
  destruct (classify (dist o)); try (repeat split; fail).
  destruct (getSuseVersionString o); repeat split.
Qed.

(** The three ways [load_os] can go. *)
Lemma load_os_cases (st : State) :
  (exists o, os (this st) = Some o /\ load_os st = (Ok tt, st))
  \/ (os (this st) = None
      /\ exists o, getos_reply (host st) (getos_calls (host st)) = Ok o
         /\ load_os st = (Ok tt, snd (set_os o (snd (getos st)))))
  \/ (os (this st) = None
      /\ exists e, getos_reply (host st) (getos_calls (host st)) = Throw e
         /\ load_os st = (Throw e, snd (getos st))).
Proof.
  unfold load_os, bind, self.
  destruct (os (this st)) as [o|] eqn:Hos.
  - left. exists o. split; reflexivity.
  - right. unfold getos at 1 3.
    destruct (getos_reply (host st) (getos_calls (host st))) as [o|e] eqn:Hr.
    + left. split; [reflexivity|]. exists o. split; [reflexivity|].
      unfold getos. rewrite Hr. reflexivity.
    + right. split; [reflexivity|]. exists e. split; [reflexivity|].
      unfold getos. rewrite Hr. reflexivity.
Qed.

Lemma load_os_step (st : State) : step st (snd (load_os st)).
Proof.
  destruct (load_os_cases st) as [(o & Hos & Hrun)|[(Hos & o & Hr & Hrun)|(Hos & e & Hr & Hrun)]];
    rewrite Hrun; cbn [snd]; unfold step.
  - split; [apply same_settings_refl|]. split; [reflexivity|].
    left. split; reflexivity.
  - split; [repeat split|]. split; [reflexivity|].
    right. left. split; [exact Hos|]. split; [reflexivity|].
    exists o. split; [exact Hr | reflexivity].
  - split; [repeat split|]. split; [reflexivity|].
    right. right. split; [exact Hos|]. split; [reflexivity|].
    split; [exact Hos|]. exists e. exact Hr.
Qed.

(** After [load_os] returns, the descriptor is there. *)
Lemma load_os_loaded (st st1 : State) :
  load_os st = (Ok tt, st1) -> exists o, os (this st1) = Some o.
Proof.
  destruct (load_os_cases st) as [(o & Hos & Hrun)|[(Hos & o & Hr & Hrun)|(Hos & e & Hr & Hrun)]];
    rewrite Hrun; intros H; inversion H; subst.
  - exists o. exact Hos.
  - exists o. reflexivity.
Qed.

(** The name assembled by successive appends is the described name. *)
Lemma assembled_name (t t' : MongoBinaryDownloadUrl) (osString : option string) :
  same_settings t t' ->
  (let name := "mongodb-" ++ platform t in
   let name := if ssl_set (ssl t) then name ++ "-ssl" else name in
   let name :=
     if negb (String.eqb (platform t) "src") then name ++ ("-" ++ arch t)
     else name in
   let name :=
     if truthy osString then name ++ ("-" ++ ToString osString) else name in
   if negb (String.eqb (platform t') "src")
   then name ++ ("-" ++ version t' ++ "." ++ getArchiveType t')
   else name ++ ("-r" ++ version t' ++ "." ++ getArchiveType t'))
  = archive_name (platform t) (ssl_set (ssl t)) (arch t) osString (version t).
Proof.
  intros (Hp & _ & _ & Hv). cbv zeta. rewrite <- Hp, <- Hv.
  unfold archive_name, getArchiveType. rewrite <- Hp.
  destruct (String.eqb (platform t) "src") eqn:Hsrc.
  - apply String.eqb_eq in Hsrc. rewrite Hsrc. cbn [negb String.eqb Ascii.eqb].
    destruct (ssl_set (ssl t)), osString as [[|c q]|];
      cbn [truthy ToString isEmpty negb];
      rewrite ?append_assoc; cbn [append]; reflexivity.
  - destruct (String.eqb (platform t) "win32");
      destruct (ssl_set (ssl t)), osString as [[|c q]|];
      cbn [truthy ToString isEmpty negb];
      rewrite ?append_assoc; cbn [append]; reflexivity.
Qed.

(** [getArchiveName], one statement after the other. *)
Lemma getArchiveName_unfold (st : State) :
  getArchiveName st =
  if qualified (this st) then
    match load_os st with
    | (Ok _, st1) =>
        match os (this st1) with
        | Some o =>
            match getLinuxOSVersionString o st1 with
            | (Ok q, st2) =>
                (Ok (archive_name (platform (this st)) (ssl_set (ssl (this st)))
                       (arch (this st)) (Some q) (version (this st))), st2)
            | (Throw e, st2) => (Throw e, st2)
            end
        | None => (Throw TypeError, st1)
        end
    | (Throw e, st1) => (Throw e, st1)
    end
  else
    (Ok (archive_name (platform (this st)) (ssl_set (ssl (this st)))
           (arch (this st)) None (version (this st))), st).
Proof.
  unfold getArchiveName, qualified. unfold bind at 1. unfold self at 1.
  destruct (String.eqb (platform (this st)) "linux"
            && negb (String.eqb (arch (this st)) "i686")).
  - unfold bind at 1. unfold bind at 1.
    pose proof (load_os_step st) as Hstep.
    destruct (load_os st) as [[[]|e] st1]; [|reflexivity].
    cbn [snd] in Hstep. destruct Hstep as (Hset1 & _).
    unfold bind at 1. unfold self at 1.
    destruct (os (this st1)) as [o|]; [|reflexivity].
    unfold bind at 1.
    pose proof (getLinuxOSVersionString_frame o st1) as (Hthis & _).
    destruct (getLinuxOSVersionString o st1) as [[q|e] st2]; [|reflexivity].
    cbn [snd] in Hthis. unfold ret at 1.
    unfold bind, self, ret.
    pose proof (assembled_name (this st) (this st2) (Some q)) as Hname.
    cbv zeta in Hname. rewrite <- Hname by (rewrite Hthis; exact Hset1).
    destruct (negb (String.eqb (platform (this st2)) "src")); reflexivity.
  - unfold ret at 1. unfold bind, self, ret.
    pose proof (assembled_name (this st) (this st) None (same_settings_refl _)) as Hname.
    cbv zeta in Hname. rewrite <- Hname.
    destruct (negb (String.eqb (platform (this st)) "src")); reflexivity.
Qed.

Lemma qualified_true_iff (t : MongoBinaryDownloadUrl) :
  qualified t = true <-> platform t = "linux" /\ arch t <> "i686".
Proof.
  unfold qualified. rewrite andb_true_iff, negb_true_iff, String.eqb_eq, String.eqb_neq.
  reflexivity.
Qed.

Lemma qualified_false_iff (t : MongoBinaryDownloadUrl) :
  qualified t = false <-> platform t <> "linux" \/ arch t = "i686".
Proof.
  unfold qualified. rewrite andb_false_iff, negb_false_iff, String.eqb_eq, String.eqb_neq.
  reflexivity.
Qed.

(** The qualifier computation returns, except for the Suse rule on a
    descriptor without release. *)
Lemma getLinuxOSVersionString_returns (o : OS) (st : State) :
  classify (dist o) <> Suse \/ release o <> None ->
  exists q st', getLinuxOSVersionString o st = (Ok q, st').
Proof.
  intros H. rewrite getLinuxOSVersionString_dispatch.
  destruct (classify (dist o)) eqn:Hc; try (eexists; eexists; reflexivity).
  destruct H as [H|H]; [congruence|].
  destruct o as [d [r|]]; cbn [release] in H; [|congruence].
  rewrite getSuseVersionString_with_release. eexists; eexists; reflexivity.
Qed.

(** ** The archive name *)

(** C5: for every successfully constructed resolver the archive name is
    mongodb-{platform}, then "-ssl" iff the ssl flag is set, then
    "-{arch}" unless the platform is "src", then "-{qualifier}" iff a Linux
    qualifier was computed and is not empty, then "-r{version}.tar.gz" for
    the platform "src" and "-{version}.{ext}" otherwise, with ext "zip" for
    win32 and "tgz" for the others. The call returns whenever no qualifier
    is needed, and whenever the descriptor was supplied and its qualifier
    computation returns. *)
Theorem archive_name_is_assembled (opts : MongoBinaryDownloadUrlOpts)
    (t : MongoBinaryDownloadUrl) (h : Host) :
  constructor opts = Ok t ->
  (platform t <> "linux" \/ arch t = "i686" ->
   getArchiveName (mkState t h)
   = (Ok (archive_name (platform t) (ssl_set (ssl t)) (arch t) None (version t)),
      mkState t h))
  /\ (platform t = "linux" /\ arch t <> "i686" ->
      forall st1 o q st2,
        load_os (mkState t h) = (Ok tt, st1) ->
        os (this st1) = Some o ->
        getLinuxOSVersionString o st1 = (Ok q, st2) ->
        getArchiveName (mkState t h)
        = (Ok (archive_name (platform t) (ssl_set (ssl t)) (arch t) (Some q)
                 (version t)), st2))
  /\ (platform t = "linux" /\ arch t <> "i686" ->
      forall o, os t = Some o ->
        classify (dist o) <> Suse \/ release o <> None ->
        exists q st2,
          getLinuxOSVersionString o (mkState t h) = (Ok q, st2)
          /\ getArchiveName (mkState t h)
             = (Ok (archive_name (platform t) (ssl_set (ssl t)) (arch t)
                      (Some q) (version t)), st2))
  /\ (forall name st',
        getArchiveName (mkState t h) = (Ok name, st') ->
        exists qualifier,
          name = archive_name (platform t) (ssl_set (ssl t)) (arch t)
                   qualifier (version t)
          /\ (qualifier = None <-> platform t <> "linux" \/ arch t = "i686")).
Proof.
  intros _. repeat split.
  - intros Hq. apply qualified_false_iff in Hq.
    rewrite getArchiveName_unfold. cbn [this]. rewrite Hq. reflexivity.
  - intros Hq st1 o q st2 Hload Hos Hrun. apply qualified_true_iff in Hq.
    rewrite getArchiveName_unfold. cbn [this]. rewrite Hq, Hload, Hos, Hrun.
    reflexivity.
  - intros Hq o Hos Hret. apply qualified_true_iff in Hq.
    destruct (getLinuxOSVersionString_returns o (mkState t h) Hret) as (q & st2 & Hrun).
    exists q, st2. split; [exact Hrun|].
    rewrite getArchiveName_unfold. cbn [this]. rewrite Hq.
    unfold load_os, bind, self. cbn [this]. rewrite Hos.
    unfold ret. cbn [this]. rewrite Hos, Hrun. reflexivity.
  - intros name st' Hrun. rewrite getArchiveName_unfold in Hrun. cbn [this] in Hrun.
    destruct (qualified t) eqn:Hq.
    + destruct (load_os (mkState t h)) as [[[]|e] st1]; [|discriminate].
      destruct (os (this st1)) as [o|]; [|discriminate].
      destruct (getLinuxOSVersionString o st1) as [[q|e] st2]; [|discriminate].
      inversion Hrun; subst. exists (Some q). split; [reflexivity|].
      apply qualified_true_iff in Hq. destruct Hq as [Hp Ha].
      split; [discriminate|]. intros [H|H]; contradiction.
    + inversion Hrun; subst. exists None. split; [reflexivity|].
      apply qualified_false_iff in Hq. split; [intros _; exact Hq | reflexivity].
Qed.

Lemma archive_name_is_assembled_witness :
  getArchiveName
    (mkState (mkInstance "win32" "x86_64" (Some true) "3.6.5" None) failing_host)
  = (Ok "mongodb-win32-ssl-x86_64-3.6.5.zip",
     mkState (mkInstance "win32" "x86_64" (Some true) "3.6.5" None) failing_host).
Proof.
  refine (proj1 (archive_name_is_assembled
                   (mkOpts "3.6.5" "win32" "x64" (Some true) None)
                   (mkInstance "win32" "x86_64" (Some true) "3.6.5" None)
                   failing_host eq_refl) _).
  left. discriminate.
Defined.

(** One call of [getArchiveName] is one [step]. *)
Lemma getArchiveName_step (st : State) : step st (snd (getArchiveName st)).
Proof.
  assert (step st st) as Hsame.
  { split; [apply same_settings_refl|]. split; [reflexivity|].
    left. split; reflexivity. }
  rewrite getArchiveName_unfold.
  destruct (qualified (this st)); [|exact Hsame].
  pose proof (load_os_step st) as Hstep.
  destruct (load_os st) as [[[]|e] st1]; [|exact Hstep].
  cbn [snd] in Hstep.
  destruct (os (this st1)) as [o|] eqn:Hos; [|exact Hstep].
  pose proof (getLinuxOSVersionString_frame o st1) as (Hthis & Hcalls & Hreply).
  assert (step st (snd (getLinuxOSVersionString o st1))) as Hgoal.
  { unfold step. rewrite Hthis, Hcalls, Hreply. exact Hstep. }
  destruct (getLinuxOSVersionString o st1) as [[q|e] st2]; exact Hgoal.
Qed.

Lemma getDownloadUrl_state (st : State) :
  snd (getDownloadUrl st) = snd (getArchiveName st).
Proof.
  unfold getDownloadUrl, bind.
  destruct (getArchiveName st) as [[name|e] st']; reflexivity.
Qed.

Lemma call_step (c : Call) (st : State) : step st (call c st).
Proof.
  destruct c; cbn [call]; rewrite ?getDownloadUrl_state; apply getArchiveName_step.
Qed.

(** ** The download URL *)

(** C6: for every successfully constructed resolver the download URL is
    "https://downloads.mongodb.org/", the normalized platform, "/" and the
    archive name that [getArchiveName] produces on the same instance; it
    fails exactly as [getArchiveName] does. *)
Theorem download_url_is_base_platform_archive (opts : MongoBinaryDownloadUrlOpts)
    (t : MongoBinaryDownloadUrl) (h : Host) :
  constructor opts = Ok t ->
  (forall name st',
     getArchiveName (mkState t h) = (Ok name, st') ->
     getDownloadUrl (mkState t h)
     = (Ok ("https://downloads.mongodb.org/" ++ platform t ++ "/" ++ name), st'))
  /\ (forall e st',
        getArchiveName (mkState t h) = (Throw e, st') ->
        getDownloadUrl (mkState t h) = (Throw e, st')).
Proof.
  intros _. split.
  - intros name st' Hrun.
    pose proof (getArchiveName_step (mkState t h)) as ((Hp & _) & _).
    rewrite Hrun in Hp. cbn [snd this] in Hp.
    unfold getDownloadUrl, bind, self, ret. rewrite Hrun, <- Hp. reflexivity.
  - intros e st' Hrun. unfold getDownloadUrl, bind. rewrite Hrun. reflexivity.
Qed.

Lemma download_url_is_base_platform_archive_witness :
  getDownloadUrl (mkState (mkInstance "osx" "x86_64" None "4.0.0" None) failing_host)
  = (Ok "https://downloads.mongodb.org/osx/mongodb-osx-x86_64-4.0.0.tgz",
     mkState (mkInstance "osx" "x86_64" None "4.0.0" None) failing_host).
Proof.
  exact (proj1 (download_url_is_base_platform_archive
                  (mkOpts "4.0.0" "darwin" "x64" None None)
                  (mkInstance "osx" "x86_64" None "4.0.0" None)
                  failing_host eq_refl)
               "mongodb-osx-x86_64-4.0.0.tgz"
               (mkState (mkInstance "osx" "x86_64" None "4.0.0" None) failing_host)
               eq_refl).
Defined.

(** ** Construction *)

Lemma isRaspbian_false_iff (o : option OS) :
  isRaspbian o = false <-> forall d, o = Some d -> dist d <> "Raspbian".
Proof.
  destruct o as [d|]; cbn [isRaspbian].
  - rewrite String.eqb_neq. split.
    + intros H d' Hd. inversion Hd; subst. exact H.
    + intros H. apply (H d). reflexivity.
  - split; [intros _ d Hd; discriminate | reflexivity].
Qed.

(** C7: for every raw platform outside darwin, win32, linux,
    "elementary OS" and sunos, when the descriptor does not indicate
    Raspbian, the constructor throws the error that names the platform,
    and neither an archive name nor a URL is produced. *)
Theorem unsupported_platform_fails (opts : MongoBinaryDownloadUrlOpts) :
  ~ In (opts_platform opts) ["darwin"; "win32"; "linux"; "elementary OS"; "sunos"] ->
  (forall o, opts_os opts = Some o -> dist o <> "Raspbian") ->
  constructor opts = Throw (Error ("unsupported OS " ++ opts_platform opts))
  /\ forall h,
       construct_and_call opts getArchiveName h
       = (Throw (Error ("unsupported OS " ++ opts_platform opts)), h)
       /\ construct_and_call opts getDownloadUrl h
          = (Throw (Error ("unsupported OS " ++ opts_platform opts)), h).
Proof.
  intros Hout Hrasp. apply isRaspbian_false_iff in Hrasp.
  assert (constructor opts = Throw (Error ("unsupported OS " ++ opts_platform opts)))
    as Hctor.
  { unfold constructor, translatePlatform. rewrite Hrasp.
    cbn [In] in Hout.
    destruct (String.eqb_spec (opts_platform opts) "darwin") as [E|_];
      [exfalso; apply Hout; rewrite E; tauto|].
    destruct (String.eqb_spec (opts_platform opts) "win32") as [E|_];
      [exfalso; apply Hout; rewrite E; tauto|].
    destruct (String.eqb_spec (opts_platform opts) "linux") as [E|_];
      [exfalso; apply Hout; rewrite E; tauto|].
    destruct (String.eqb_spec (opts_platform opts) "elementary OS") as [E|_];
      [exfalso; apply Hout; rewrite E; tauto|].
    destruct (String.eqb_spec (opts_platform opts) "sunos") as [E|_];
      [exfalso; apply Hout; rewrite E; tauto|].
    reflexivity. }
  split; [exact Hctor|].
  intros h. unfold construct_and_call. rewrite Hctor. split; reflexivity.
Qed.

Lemma unsupported_platform_fails_witness :
  constructor (mkOpts "4.0.0" "irix" "x64" None None)
  = Throw (Error "unsupported OS irix").
Proof.
  refine (proj1 (unsupported_platform_fails
                   (mkOpts "4.0.0" "irix" "x64" None None) _ _)).
  - cbn. intros [H|[H|[H|[H|[H|[]]]]]]; discriminate.
  - intros o H. discriminate.
Defined.

(** C10: for every configuration whose descriptor has dist exactly
    "Raspbian" and whose raw architecture is "ia32", the constructor
    throws the unsupported-architecture error, whatever the raw platform:
    the platform is "src" by then. On linux and win32 the same
    configuration without the descriptor is accepted. *)
Theorem raspbian_ia32_fails (opts : MongoBinaryDownloadUrlOpts) (o : OS) :
  opts_os opts = Some o ->
  dist o = "Raspbian" ->
  opts_arch opts = "ia32" ->
  translatePlatform (opts_platform opts) (opts_os opts) = Ok "src"
  /\ constructor opts = Throw (Error "unsupported architecture")
  /\ (opts_platform opts = "linux" ->
      constructor (without_os opts)
      = Ok (mkInstance "linux" "i686" (opts_ssl opts) (opts_version opts) None))
  /\ (opts_platform opts = "win32" ->
      constructor (without_os opts)
      = Ok (mkInstance "win32" "i386" (opts_ssl opts) (opts_version opts) None)).
Proof.
  intros Hos Hdist Harch.
  assert (translatePlatform (opts_platform opts) (opts_os opts) = Ok "src") as Hp.
  { unfold translatePlatform, isRaspbian. rewrite Hos, Hdist. reflexivity. }
  split; [exact Hp|]. split.
  - unfold constructor. rewrite Hp, Harch. reflexivity.
  - split; intros Hplat; unfold constructor, without_os; cbn;
      rewrite Hplat, Harch; reflexivity.
Qed.

Lemma raspbian_ia32_fails_witness :
  constructor (mkOpts "4.0.0" "linux" "ia32" None (Some (mkOS "Raspbian" (Some "9"))))
  = Throw (Error "unsupported architecture")
  /\ constructor (mkOpts "4.0.0" "linux" "ia32" None None)
     = Ok (mkInstance "linux" "i686" None "4.0.0" None).
Proof.
  destruct (raspbian_ia32_fails
              (mkOpts "4.0.0" "linux" "ia32" None (Some (mkOS "Raspbian" (Some "9"))))
              (mkOS "Raspbian" (Some "9")) eq_refl eq_refl eq_refl)
    as (_ & Hfail & Hlinux & _).
  split; [exact Hfail | exact (Hlinux eq_refl)].
Defined.

(** ** Unknown distributions *)

Lemma classify_unknown (d : string) :
  (forall p, In p known_names -> testIgnoreCase p d = false) ->
  classify d = Unknown.
Proof.
  intros Hnone. apply classify_Unknown_iff.
  intros names family Hin p Hp. apply Hnone.
  unfold precedence in Hin. cbn [In] in Hin. unfold known_names. cbn [In].
  repeat (destruct Hin as [Hin|Hin];
          [inversion Hin; subst; cbn [In] in Hp; tauto|]).
  contradiction.
Qed.

(** C9: for every Linux descriptor whose distribution name contains none
    of ubuntu, elementary OS, suse, rhel, centos, scientific, fedora,
    debian and mint (letter case ignored), resolution does not fail: the
    warning is logged, the qualifier is empty, and the archive name has no
    qualifier segment. The descriptor is the supplied one or the one getos
    reported. *)
Theorem unknown_distribution_falls_back (opts : MongoBinaryDownloadUrlOpts)
    (t : MongoBinaryDownloadUrl) (h : Host) (st1 : State) (o : OS) :
  constructor opts = Ok t ->
  platform t = "linux" -> arch t <> "i686" ->
  load_os (mkState t h) = (Ok tt, st1) ->
  os (this st1) = Some o ->
  (forall p, In p known_names -> testIgnoreCase p (dist o) = false) ->
  getLinuxOSVersionString o st1
  = (Ok EmptyString, warned (unknown_distro_warning (dist o)) st1)
  /\ getArchiveName (mkState t h)
     = (Ok ("mongodb-linux" ++ (if ssl_set (ssl t) then "-ssl" else EmptyString)
            ++ "-" ++ arch t ++ "-" ++ version t ++ ".tgz"),
        warned (unknown_distro_warning (dist o)) st1)
  /\ console (host (warned (unknown_distro_warning (dist o)) st1))
     = (console (host st1) ++ [unknown_distro_warning (dist o)])%list.
Proof.
  intros _ Hp Ha Hload Hos Hnone.
  pose proof (classify_unknown (dist o) Hnone) as Hc.
  assert (getLinuxOSVersionString o st1
          = (Ok EmptyString, warned (unknown_distro_warning (dist o)) st1)) as Hrun.
  { rewrite getLinuxOSVersionString_dispatch, Hc. reflexivity. }
  split; [exact Hrun|]. split; [|reflexivity].
  rewrite getArchiveName_unfold. cbn [this].
  rewrite (proj2 (qualified_true_iff t) (conj Hp Ha)), Hload, Hos, Hrun.
  unfold archive_name. rewrite Hp. cbn [String.eqb Ascii.eqb isEmpty].
  destruct (ssl_set (ssl t)); cbn [append]; rewrite ?append_assoc; reflexivity.
Qed.

Lemma unknown_distribution_falls_back_witness :
  getArchiveName
    (mkState (mkInstance "linux" "x86_64" None "4.0.0" (Some (mkOS "Arch Linux" None)))
             failing_host)
  = (Ok "mongodb-linux-x86_64-4.0.0.tgz",
     mkState (mkInstance "linux" "x86_64" None "4.0.0" (Some (mkOS "Arch Linux" None)))
             (mkHost ["Unknown linux distro Arch Linux, falling back to legacy MongoDB build"]
                     0 (getos_reply failing_host))).
Proof.
  refine (proj1 (proj2 (unknown_distribution_falls_back
    (linux_x64 (Some (mkOS "Arch Linux" None)))
    (mkInstance "linux" "x86_64" None "4.0.0" (Some (mkOS "Arch Linux" None)))
    failing_host
    (mkState (mkInstance "linux" "x86_64" None "4.0.0" (Some (mkOS "Arch Linux" None)))
             failing_host)
    (mkOS "Arch Linux" None)
    eq_refl eq_refl _ eq_refl eq_refl _))).
  - discriminate.
  - intros p Hin. cbn in Hin.
    repeat (destruct Hin as [Hin|Hin]; [subst p; reflexivity|]).
    contradiction.
Defined.

(** ** The instance over a sequence of calls *)

Lemma resolved_split (h : Host) (from n m : nat) :
  resolved h from (n + m) = (resolved h from n + resolved h (from + n) m)%nat.
Proof.
  unfold resolved.
  rewrite seq_app, map_app, filter_app, length_app. reflexivity.
Qed.

Lemma resolved_one (h : Host) (k : nat) :
  resolved h k 1 = if is_ok (getos_reply h k) then 1%nat else 0%nat.
Proof.
  unfold resolved. cbn [seq map filter].
  destruct (is_ok (getos_reply h k)); reflexivity.
Qed.

Lemma evolves_refl (st : State) : evolves st st.
Proof.
  unfold evolves. split; [apply same_settings_refl|].
  split; [reflexivity|]. split; [lia|]. left.
  split; [reflexivity|]. split; [|reflexivity].
  rewrite Nat.sub_diag. reflexivity.
Qed.

Lemma same_settings_trans (a b c : MongoBinaryDownloadUrl) :
  same_settings a b -> same_settings b c -> same_settings a c.
Proof.
  unfold same_settings. intros (? & ? & ? & ?) (? & ? & ? & ?).
  repeat split; congruence.
Qed.

Lemma evolves_step (st st' st'' : State) :
  evolves st st' -> step st' st'' -> evolves st st''.
Proof.
  intros (Hset & Hreply & Hle & Hos) (Hset' & Hreply' & Hstep).
  unfold evolves.
  split; [exact (same_settings_trans _ _ _ Hset Hset')|].
  split; [congruence|].
  destruct Hstep as [(Hos' & Hcalls')|[(Hnone & Hcalls' & o & Hok & Hos')|(Hnone & Hcalls' & Hos' & e & Hfail)]].
  - rewrite Hcalls', Hos'. split; [exact Hle | exact Hos].
  - split; [lia|].
    destruct Hos as [(Hsame & Hres & Hfixed)|(_ & _ & k & o' & _ & _ & _ & Hsome)];
      [|congruence].
    right. split; [congruence|]. split.
    + replace (getos_calls (host st'') - getos_calls (host st))%nat
        with ((getos_calls (host st') - getos_calls (host st)) + 1)%nat by lia.
      rewrite resolved_split, Hres, resolved_one.
      replace (getos_calls (host st)
               + (getos_calls (host st') - getos_calls (host st)))%nat
        with (getos_calls (host st')) by lia.
      rewrite <- Hreply, Hok. reflexivity.
    + exists (getos_calls (host st')), o.
      split; [exact Hcalls'|]. split; [exact Hle|].
      split; [rewrite <- Hreply; exact Hok | exact Hos'].
  - split; [lia|].
    destruct Hos as [(Hsame & Hres & Hfixed)|(_ & _ & k & o' & _ & _ & _ & Hsome)];
      [|congruence].
    left. split; [congruence|]. split.
    + replace (getos_calls (host st'') - getos_calls (host st))%nat
        with ((getos_calls (host st') - getos_calls (host st)) + 1)%nat by lia.
      rewrite resolved_split, Hres, resolved_one.
      replace (getos_calls (host st)
               + (getos_calls (host st') - getos_calls (host st)))%nat
        with (getos_calls (host st')) by lia.
      rewrite <- Hreply, Hfail. reflexivity.
    + intros Hsome. exfalso. apply Hsome. congruence.
Qed.

Lemma run_evolves (cs : list Call) (st0 st : State) :
  evolves st0 st -> evolves st0 (run cs st).
Proof.
  revert st. induction cs as [|c cs IH]; intros st Hev; cbn [run fold_left].
  - exact Hev.
  - apply IH. exact (evolves_step _ _ _ Hev (call_step c st)).
Qed.

(** One call invokes getos at most once. *)
Lemma call_probes_at_most_once (c : Call) (st : State) :
  (getos_calls (host st) <= getos_calls (host (call c st))
   <= S (getos_calls (host st)))%nat.
Proof.
  destruct (call_step c st) as (_ & _ & [(_ & H)|[(_ & H & _)|(_ & H & _)]]);
    rewrite H; lia.
Qed.

(** *** Calls that overlap and calls that do not *)

(** A call that goes on as soon as getos has answered is [getArchiveName]:
    the calls of [run] are the calls that do not overlap. *)
Lemma getArchiveName_start_resume (st : State) :
  getArchiveName_uninterrupted st = getArchiveName st.
Proof.
  destruct st as [[p a s v d] [c n f]].
  cbv beta iota zeta delta
    [getArchiveName_uninterrupted getArchiveName_start getArchiveName_resume
     getArchiveName_qualify getArchiveName_finish getArchiveName load_os
     getos set_os bind self ret throw
     this host platform arch ssl version os console getos_calls getos_reply].
  destruct (String.eqb p "linux" && negb (String.eqb a "i686")).
  - destruct d as [o|].
    + destruct (getLinuxOSVersionString o _) as [[q|e] [[p2 a2 s2 v2 d2] h2]];
        [|reflexivity].
      cbv beta iota.
      destruct (negb (String.eqb p2 "src")); reflexivity.
    + destruct (f n) as [o|e]; [|reflexivity].
      destruct (getLinuxOSVersionString o _) as [[q|e] [[p2 a2 s2 v2 d2] h2]];
        [|reflexivity].
      cbv beta iota.
      destruct (negb (String.eqb p2 "src")); reflexivity.
  - destruct (negb (String.eqb p "src")); reflexivity.
Qed.

Lemma getArchiveName_qualify_this (name : string) (st : State) :
  this (snd (getArchiveName_qualify name st)) = this st.
Proof.
  unfold getArchiveName_qualify, getArchiveName_finish, bind, self, ret, throw.
  destruct (os (this st)) as [o|]; [|reflexivity].
  pose proof (getLinuxOSVersionString_frame o st) as (Hthis & _).
  destruct (getLinuxOSVersionString o st) as [[q|e] st2]; cbn [snd] in *;
    [|exact Hthis].
  destruct (negb (String.eqb (platform (this st2)) "src")); exact Hthis.
Qed.

(** Neither half of a call writes a field other than [os]. *)
Lemma getArchiveName_start_settings (st : State) :
  same_settings (this st) (this (snd (getArchiveName_start st))).
Proof.
  unfold getArchiveName_start. cbv zeta.
  destruct (String.eqb (platform (this st)) "linux"
            && negb (String.eqb (arch (this st)) "i686")).
  - destruct (os (this st)) as [o|]; [|apply same_settings_refl].
    match goal with
    | |- context [getArchiveName_qualify ?n st] =>
        pose proof (getArchiveName_qualify_this n st) as Hthis;
        destruct (getArchiveName_qualify n st) as [r st']
    end.
    cbn [snd] in *. rewrite Hthis. apply same_settings_refl.
  - unfold getArchiveName_finish, bind, self, ret.
    destruct (negb (String.eqb (platform (this st)) "src"));
      apply same_settings_refl.
Qed.

Lemma getArchiveName_resume_settings (name : string) (ticket : nat) (st : State) :
  same_settings (this st) (this (snd (getArchiveName_resume name ticket st))).
Proof.
  unfold getArchiveName_resume.
  destruct (getos_reply (host st) ticket) as [o|e]; [|apply same_settings_refl].
  unfold bind, set_os.
  rewrite getArchiveName_qualify_this. repeat split.
Qed.

(** On linux other than i686, a call that finds no descriptor calls
    getos. *)
Lemma getArchiveName_probes (st : State) :
  platform (this st) = "linux" -> arch (this st) <> "i686" ->
  os (this st) = None ->
  getos_calls (host (snd (getArchiveName st))) = S (getos_calls (host st)).
Proof.
  intros Hp Ha Hos. rewrite getArchiveName_unfold.
  rewrite (proj2 (qualified_true_iff _) (conj Hp Ha)).
  destruct (load_os_cases st)
    as [(o & Hsome & _)|[(_ & o & _ & Hload)|(_ & e & _ & Hload)]];
    [congruence| |]; rewrite Hload; [|reflexivity].
  cbn [snd set_os getos this host os].
  match goal with
  | |- context [getLinuxOSVersionString o ?s] =>
      pose proof (getLinuxOSVersionString_frame o s) as (_ & Hcalls & _);
      destruct (getLinuxOSVersionString o s) as [[q|e] st2]
  end; cbn [snd] in *; exact Hcalls.
Qed.

Lemma call_probes (c : Call) (st : State) :
  platform (this st) = "linux" -> arch (this st) <> "i686" ->
  os (this st) = None ->
  getos_calls (host (call c st)) = S (getos_calls (host st)).
Proof.
  intros Hp Ha Hos.
  destruct c; cbn [call]; rewrite ?getDownloadUrl_state;
    exact (getArchiveName_probes st Hp Ha Hos).
Qed.

Lemma call_does_not_probe (c : Call) (st : State) :
  platform (this st) <> "linux" \/ arch (this st) = "i686"
  \/ os (this st) <> None ->
  getos_calls (host (call c st)) = getos_calls (host st)
  /\ os (this (call c st)) = os (this st).
Proof.
  intros H.
  destruct (qualified (this st)) eqn:Hq.
  - apply qualified_true_iff in Hq. destruct Hq as [Hp Ha].
    destruct H as [H|[H|H]]; [contradiction|contradiction|].
    destruct (call_step c st)
      as (_ & _ & [(Hos & Hcalls)|[(Hnone & _)|(Hnone & _)]]);
      [split; assumption|contradiction|contradiction].
  - assert (call c st = st) as Hcall.
    { destruct c; cbn [call]; rewrite ?getDownloadUrl_state;
        rewrite getArchiveName_unfold, Hq; reflexivity. }
    rewrite Hcall. split; reflexivity.
Qed.

(** C8, as the code has it: the normalized platform, the normalized
    architecture, the ssl flag and the version stay as constructed, and
    the descriptor is the only field written later; this holds for each
    half of a call around its await, so for calls that overlap too. Over
    any sequence of calls each completed before the next starts, the
    descriptor is written at most once, from undefined to a descriptor
    that getos reported, and never changes once set. A call invokes getos
    exactly once when it runs on a linux instance other than i686 whose
    descriptor is undefined, and not at all otherwise; so at most one
    invocation of getos is ever answered with a descriptor, getos is not
    invoked after that, nor at all when a descriptor was supplied. An
    invocation of getos that fails leaves the descriptor undefined, so the
    next call invokes getos again. *)
Theorem settings_fixed_descriptor_stored_once (opts : MongoBinaryDownloadUrlOpts)
    (t : MongoBinaryDownloadUrl) (h : Host) (cs : list Call) :
  constructor opts = Ok t ->
  same_settings t (this (run cs (mkState t h)))
  /\ (os (this (run cs (mkState t h))) = os t
      \/ (os t = None
          /\ exists k o,
               (getos_calls h <= k < getos_calls (host (run cs (mkState t h))))%nat
               /\ getos_reply h k = Ok o
               /\ os (this (run cs (mkState t h))) = Some o))
  /\ (resolved h (getos_calls h)
        (getos_calls (host (run cs (mkState t h))) - getos_calls h) <= 1)%nat
  /\ (forall o, os t = Some o ->
        getos_calls (host (run cs (mkState t h))) = getos_calls h)
  /\ (forall o more,
        os (this (run cs (mkState t h))) = Some o ->
        os (this (run more (run cs (mkState t h)))) = Some o
        /\ getos_calls (host (run more (run cs (mkState t h))))
           = getos_calls (host (run cs (mkState t h))))
  /\ (forall c st,
        (getos_calls (host (call c st)) <= S (getos_calls (host st)))%nat)
  /\ (forall c st,
        platform (this st) = "linux" -> arch (this st) <> "i686" ->
        os (this st) = None ->
        getos_calls (host (call c st)) = S (getos_calls (host st))
        /\ (forall e,
              getos_reply (host st) (getos_calls (host st)) = Throw e ->
              os (this (call c st)) = None)
        /\ (forall o,
              getos_reply (host st) (getos_calls (host st)) = Ok o ->
              os (this (call c st)) = Some o))
  /\ (forall c st,
        platform (this st) <> "linux" \/ arch (this st) = "i686"
        \/ os (this st) <> None ->
        getos_calls (host (call c st)) = getos_calls (host st)
        /\ os (this (call c st)) = os (this st))
  /\ (forall c st,
        platform (this st) = "linux" -> arch (this st) <> "i686" ->
        os (this st) = None ->
        forall e,
          getos_reply (host st) (getos_calls (host st)) = Throw e ->
          forall c',
            getos_calls (host (call c' (call c st)))
            = S (S (getos_calls (host st))))
  /\ (forall st,
        same_settings (this st) (this (snd (getArchiveName_start st))))
  /\ (forall name ticket st,
        same_settings (this st)
          (this (snd (getArchiveName_resume name ticket st))))
  /\ (forall st, getArchiveName_uninterrupted st = getArchiveName st).
Proof.
  intros _.
  pose proof (run_evolves cs _ _ (evolves_refl (mkState t h)))
    as (Hset & Hreply & Hle & Hos).
  cbn [this host] in *.
  assert (forall c st,
            platform (this st) = "linux" -> arch (this st) <> "i686" ->
            os (this st) = None ->
            getos_calls (host (call c st)) = S (getos_calls (host st))
            /\ (forall e,
                  getos_reply (host st) (getos_calls (host st)) = Throw e ->
                  os (this (call c st)) = None)
            /\ (forall o,
                  getos_reply (host st) (getos_calls (host st)) = Ok o ->
                  os (this (call c st)) = Some o)) as Hprobe.
  { intros c st Hp Ha Hnone.
    pose proof (call_probes c st Hp Ha Hnone) as Hcalls.
    split; [exact Hcalls|].
    destruct (call_step c st)
      as (_ & _ & [(_ & Hsame)|[(_ & _ & o & Hok & Hsome)|(_ & _ & Hstill & e & Hfail)]]).
    - rewrite Hcalls in Hsame. exfalso. lia.
    - split; [intros e He; congruence | intros o' Ho'; congruence].
    - split; [intros e' _; exact Hstill | intros o' Ho'; congruence]. }
  split; [exact Hset|]. split.
  { destruct Hos as [(Hsame & _)|(Hnone & _ & k & o & Hk & Hlo & Hok & Hsome)].
    - left. exact Hsame.
    - right. split; [exact Hnone|]. exists k, o.
      split; [lia|]. split; assumption. }
  split.
  { destruct Hos as [(_ & Hres & _)|(_ & Hres & _)]; rewrite Hres; lia. }
  split.
  { intros o Ho.
    destruct Hos as [(_ & _ & Hfixed)|(Hnone & _)]; [|congruence].
    apply Hfixed. congruence. }
  split.
  { intros o more Ho.
    pose proof (run_evolves more _ _ (evolves_refl (run cs (mkState t h))))
      as (_ & _ & _ & [(Hsame & _ & Hfixed)|(Hnone & _)]); [|congruence].
    split; [congruence|]. apply Hfixed. congruence. }
  split; [intros c st; apply call_probes_at_most_once|].
  split; [exact Hprobe|].
  split; [exact call_does_not_probe|].
  split.
  { intros c st Hp Ha Hnone e Hfail c'.
    destruct (Hprobe c st Hp Ha Hnone) as (Hcalls & Hstill & _).
    destruct (call_step c st) as ((Hp' & Ha' & _) & _).
    rewrite <- Hcalls.
    apply call_probes; [congruence | congruence | exact (Hstill e Hfail)]. }
  split; [exact getArchiveName_start_settings|].
  split; [exact getArchiveName_resume_settings|].
  exact getArchiveName_start_resume.
Qed.

Lemma settings_fixed_descriptor_stored_once_witness :
  same_settings (mkInstance "linux" "x86_64" None "4.0.0" None)
    (this (run [CallGetArchiveName; CallGetDownloadUrl; CallGetArchiveName]
               (mkState (mkInstance "linux" "x86_64" None "4.0.0" None)
                        (host_reporting (mkOS "Ubuntu" (Some "16.04"))))))
  /\ getos_calls
       (host (run [CallGetArchiveName; CallGetDownloadUrl; CallGetArchiveName]
                  (mkState (mkInstance "linux" "x86_64" None "4.0.0" None)
                           (host_reporting (mkOS "Ubuntu" (Some "16.04"))))))
     = 1%nat.
Proof.
  split.
  - exact (proj1 (settings_fixed_descriptor_stored_once
                    (linux_x64 None)
                    (mkInstance "linux" "x86_64" None "4.0.0" None)
                    (host_reporting (mkOS "Ubuntu" (Some "16.04")))
                    [CallGetArchiveName; CallGetDownloadUrl; CallGetArchiveName]
                    eq_refl)).
  - reflexivity.
Defined.

(** C8 as stated fails, in two ways. When getos fails, nothing is stored,
    and a second computation of the archive name on the same instance
    invokes getos a second time. And when a second computation starts
    while the first awaits getos, both find the descriptor undefined and
    both invoke getos, also when getos answers with a descriptor. *)
Lemma probe_is_invoked_more_than_once :
  (constructor (linux_x64 None) = Ok (mkInstance "linux" "x86_64" None "4.0.0" None)
   /\ fst (getArchiveName (mkState (mkInstance "linux" "x86_64" None "4.0.0" None)
                                   failing_host))
      = Throw (Rejection "getos failed")
   /\ getos_calls
        (host (run [CallGetArchiveName; CallGetArchiveName]
                   (mkState (mkInstance "linux" "x86_64" None "4.0.0" None)
                            failing_host)))
      = 2%nat)
  /\ (fst (getArchiveName_start
             (mkState (mkInstance "linux" "x86_64" None "4.0.0" None)
                      (host_reporting (mkOS "Ubuntu" (Some "16.04")))))
      = AwaitingGetos "mongodb-linux-x86_64" 0
      /\ fst (getArchiveName_start
                (snd (getArchiveName_start
                        (mkState (mkInstance "linux" "x86_64" None "4.0.0" None)
                                 (host_reporting (mkOS "Ubuntu" (Some "16.04")))))))
         = AwaitingGetos "mongodb-linux-x86_64" 1
      /\ fst (overlapping_calls
                (mkState (mkInstance "linux" "x86_64" None "4.0.0" None)
                         (host_reporting (mkOS "Ubuntu" (Some "16.04")))))
         = Some (Ok "mongodb-linux-x86_64-ubuntu1604-4.0.0.tgz",
                 Ok "mongodb-linux-x86_64-ubuntu1604-4.0.0.tgz")
      /\ getos_calls
           (host (snd (overlapping_calls
                         (mkState (mkInstance "linux" "x86_64" None "4.0.0" None)
                                  (host_reporting (mkOS "Ubuntu" (Some "16.04")))))))
         = 2%nat
      /\ resolved (host_reporting (mkOS "Ubuntu" (Some "16.04"))) 0 2 = 2%nat)
  /\ ~ (2 <= 1)%nat.
Proof.
  split; [repeat split|]. split; [repeat split|]. lia.
Qed.

(** * Further properties *)

(** ** Which configurations the constructor accepts *)

Lemma translatePlatform_Ok_iff (p : string) (o : option OS) :
  (exists q, translatePlatform p o = Ok q) <->
  isRaspbian o = true
  \/ In p ["darwin"; "win32"; "linux"; "elementary OS"; "sunos"].
Proof.
  unfold translatePlatform. cbn [In].
  destruct (isRaspbian o).
  { split; [intros _; left; reflexivity | intros _; eexists; reflexivity]. }
  destruct (String.eqb_spec p "darwin") as [E|N1].
  { split; [intros _; right; intuition congruence | intros _; eexists; reflexivity]. }
  destruct (String.eqb_spec p "win32") as [E|N2].
  { split; [intros _; right; intuition congruence | intros _; eexists; reflexivity]. }
  destruct (String.eqb_spec p "linux") as [E|N3].
  { split; [intros _; right; intuition congruence | intros _; eexists; reflexivity]. }
  destruct (String.eqb_spec p "elementary OS") as [E|N4].
  { split; [intros _; right; intuition congruence | intros _; eexists; reflexivity]. }
  destruct (String.eqb_spec p "sunos") as [E|N5].
  { split; [intros _; right; intuition congruence | intros _; eexists; reflexivity]. }
  split.
  - intros [q Hq]. discriminate.
  - intros [H|[H|[H|[H|[H|[H|[]]]]]]]; try discriminate; congruence.
Qed.

(** The normalized platform is one of five tokens, and it is "src" exactly
    for a Raspbian descriptor. *)
Lemma translatePlatform_tokens (p q : string) (o : option OS) :
  translatePlatform p o = Ok q ->
  In q ["src"; "osx"; "win32"; "linux"; "sunos5"]
  /\ (q = "src" <-> isRaspbian o = true)
  /\ (q = "linux" <-> isRaspbian o = false /\ (p = "linux" \/ p = "elementary OS"))
  /\ (q = "win32" <-> isRaspbian o = false /\ p = "win32").
Proof.
  unfold translatePlatform. cbn [In].
  destruct (isRaspbian o).
  { intros H; inversion H; subst.
    repeat split; try (intuition congruence); try discriminate; intros [? ?]; discriminate. }
  destruct (String.eqb_spec p "darwin") as [E|N1].
  { intros H; inversion H; subst.
    repeat split; try (intuition congruence); try discriminate;
      try (intros [_ [?|?]]; discriminate); try (intros [_ ?]; discriminate). }
  destruct (String.eqb_spec p "win32") as [E|N2].
  { intros H; inversion H; subst.
    repeat split; try (intuition congruence); try discriminate;
      try (intros [_ [?|?]]; discriminate). }
  destruct (String.eqb_spec p "linux") as [E|N3].
  { intros H; inversion H; subst.
    repeat split; try (intuition congruence); try discriminate;
      try (intros [_ ?]; discriminate). }
  destruct (String.eqb_spec p "elementary OS") as [E|N4].
  { intros H; inversion H; subst.
    repeat split; try (intuition congruence); try discriminate;
      try (intros [_ ?]; discriminate). }
  destruct (String.eqb_spec p "sunos") as [E|N5].
  { intros H; inversion H; subst.
    repeat split; try (intuition congruence); try discriminate;
      try (intros [_ [?|?]]; discriminate); try (intros [_ ?]; discriminate). }
  discriminate.
Qed.

(** X1: the constructor accepts a configuration exactly when the raw
    architecture is "x64" and the descriptor is Raspbian or the raw
    platform is one of darwin, win32, linux, "elementary OS" and sunos, or
    the raw architecture is "ia32", the descriptor is not Raspbian and the
    raw platform is win32, linux or "elementary OS". *)
Theorem constructor_accepts_iff (opts : MongoBinaryDownloadUrlOpts) :
  (exists t, constructor opts = Ok t) <->
  (opts_arch opts = "x64"
   /\ (isRaspbian (opts_os opts) = true
       \/ In (opts_platform opts)
            ["darwin"; "win32"; "linux"; "elementary OS"; "sunos"]))
  \/ (opts_arch opts = "ia32"
      /\ isRaspbian (opts_os opts) = false
      /\ In (opts_platform opts) ["win32"; "linux"; "elementary OS"]).
Proof.
  unfold constructor.
  pose proof (translatePlatform_Ok_iff (opts_platform opts) (opts_os opts)) as Hok.
  destruct (translatePlatform (opts_platform opts) (opts_os opts)) as [q|e] eqn:Hp.
  - pose proof (translatePlatform_tokens _ _ _ Hp) as (_ & Hsrc & Hlinux & Hwin).
    assert (isRaspbian (opts_os opts) = true
            \/ In (opts_platform opts)
                 ["darwin"; "win32"; "linux"; "elementary OS"; "sunos"]) as Hplat
      by (apply Hok; exists q; reflexivity).
    unfold translateArch.
    destruct (String.eqb_spec (opts_arch opts) "ia32") as [Ea|Na].
    + rewrite Ea.
      destruct (String.eqb_spec q "linux") as [El|Nl].
      { split; [intros _|intros _; eexists; reflexivity].
        right. apply Hlinux in El. destruct El as [Hr [E|E]]; rewrite E; cbn; intuition congruence. }
      destruct (String.eqb_spec q "win32") as [Ew|Nw].
      { split; [intros _|intros _; eexists; reflexivity].
        right. apply Hwin in Ew. destruct Ew as [Hr E]; rewrite E; cbn; intuition congruence. }
      split; [intros [t Ht]; discriminate|].
      intros [[Hx _]|(_ & Hr & Hin)]; [discriminate|].
      exfalso. cbn [In] in Hin.
      destruct Hin as [E|[E|[E|[]]]].
      * apply Nw, Hwin. split; congruence.
      * apply Nl, Hlinux. split; [exact Hr | left; congruence].
      * apply Nl, Hlinux. split; [exact Hr | right; congruence].
    + destruct (String.eqb_spec (opts_arch opts) "x64") as [Ex|Nx].
      * split; [intros _; left; split; assumption | intros _; eexists; reflexivity].
      * split; [intros [t Ht]; discriminate|].
        intros [[Hx _]|[Hi _]]; contradiction.
  - split; [intros [t Ht]; discriminate|].
    assert (~ (isRaspbian (opts_os opts) = true
               \/ In (opts_platform opts)
                    ["darwin"; "win32"; "linux"; "elementary OS"; "sunos"])) as Hno.
    { intros H. apply Hok in H. destruct H as [q Hq]. discriminate. }
    intros [[_ H]|(_ & Hr & Hin)]; exfalso; apply Hno; [exact H|].
    right. cbn [In] in *. intuition congruence.
Qed.

(** X2: a constructed instance has one of the platforms src, osx, win32,
    linux and sunos5 and one of the architectures i686, i386 and x86_64;
    i686 goes with linux only, i386 with win32 only, and src with x86_64
    only and exactly for a Raspbian descriptor; the ssl flag, the version
    and the descriptor are those of the configuration. *)
Theorem constructed_instance_tokens (opts : MongoBinaryDownloadUrlOpts)
    (t : MongoBinaryDownloadUrl) :
  constructor opts = Ok t ->
  In (platform t) ["src"; "osx"; "win32"; "linux"; "sunos5"]
  /\ In (arch t) ["i686"; "i386"; "x86_64"]
  /\ (arch t = "i686" -> platform t = "linux")
  /\ (arch t = "i386" -> platform t = "win32")
  /\ (platform t = "src" -> arch t = "x86_64")
  /\ (platform t = "src" <-> isRaspbian (opts_os opts) = true)
  /\ ssl t = opts_ssl opts
  /\ version t = opts_version opts
  /\ os t = opts_os opts.
Proof.
  unfold constructor.
  destruct (translatePlatform (opts_platform opts) (opts_os opts)) as [q|e] eqn:Hp;
    [|discriminate].
  pose proof (translatePlatform_tokens _ _ _ Hp) as (Hin & Hsrc & _ & _).
  unfold translateArch.
  destruct (String.eqb_spec (opts_arch opts) "ia32") as [Ea|Na].
  - destruct (String.eqb_spec q "linux") as [El|Nl].
    { intros H; inversion H; subst. cbn [platform arch ssl version os In].
      repeat split; try (intuition congruence); try discriminate; try reflexivity;
        try (apply Hsrc); try (intros Hr; apply Hsrc in Hr; discriminate). }
    destruct (String.eqb_spec q "win32") as [Ew|Nw]; [|discriminate].
    intros H; inversion H; subst. cbn [platform arch ssl version os In].
    repeat split; try (intuition congruence); try discriminate; try reflexivity;
      try (apply Hsrc); try (intros Hr; apply Hsrc in Hr; discriminate).
  - destruct (String.eqb_spec (opts_arch opts) "x64") as [Ex|Nx]; [|discriminate].
    intros H; inversion H; subst. cbn [platform arch ssl version os In].
    repeat split; try (intuition congruence); try discriminate; try reflexivity; apply Hsrc.
Qed.

Lemma constructed_instance_tokens_witness :
  In (platform (mkInstance "linux" "i686" None "4.0.0" None))
     ["src"; "osx"; "win32"; "linux"; "sunos5"]
  /\ In (arch (mkInstance "linux" "i686" None "4.0.0" None))
        ["i686"; "i386"; "x86_64"].
Proof.
  destruct (constructed_instance_tokens
              (mkOpts "4.0.0" "elementary OS" "ia32" None None)
              (mkInstance "linux" "i686" None "4.0.0" None) eq_refl)
    as (Hp & Ha & _).
  split; [exact Hp | exact Ha].
Defined.

(** X3: when the platform is accepted, a raw architecture other than
    "ia32" and "x64" makes the constructor throw the error that names the
    two valid options, and "ia32" on a normalized platform other than
    linux and win32 makes it throw the plain unsupported-architecture
    error. *)
Theorem unsupported_architecture_fails (opts : MongoBinaryDownloadUrlOpts)
    (p : string) :
  translatePlatform (opts_platform opts) (opts_os opts) = Ok p ->
  (opts_arch opts <> "ia32" -> opts_arch opts <> "x64" ->
   constructor opts
   = Throw (Error "unsupported architecture, ia32 and x64 are the only valid options"))
  /\ (opts_arch opts = "ia32" -> p <> "linux" -> p <> "win32" ->
      constructor opts = Throw (Error "unsupported architecture")).
Proof.
  intros Hp. unfold constructor, translateArch. rewrite Hp. split.
  - intros N1 N2.
    apply String.eqb_neq in N1, N2. rewrite N1, N2. reflexivity.
  - intros E N1 N2. rewrite E.
    apply String.eqb_neq in N1, N2. rewrite N1, N2. reflexivity.
Qed.

Lemma unsupported_architecture_fails_witness :
  constructor (mkOpts "4.0.0" "darwin" "arm64" None None)
  = Throw (Error "unsupported architecture, ia32 and x64 are the only valid options")
  /\ constructor (mkOpts "4.0.0" "darwin" "ia32" None None)
     = Throw (Error "unsupported architecture").
Proof.
  split.
  - apply (proj1 (unsupported_architecture_fails
                    (mkOpts "4.0.0" "darwin" "arm64" None None) "osx" eq_refl));
      discriminate.
  - apply (proj2 (unsupported_architecture_fails
                    (mkOpts "4.0.0" "darwin" "ia32" None None) "osx" eq_refl));
      [reflexivity | discriminate | discriminate].
Defined.

(** ** Calls that need no descriptor *)

Lemma getArchiveName_unqualified (st : State) :
  qualified (this st) = false ->
  getArchiveName st
  = (Ok (archive_name (platform (this st)) (ssl_set (ssl (this st)))
           (arch (this st)) None (version (this st))), st).
Proof.
  intros Hq. rewrite getArchiveName_unfold, Hq. reflexivity.
Qed.

Lemma getArchiveName_loaded (st : State) (o : OS) :
  qualified (this st) = true ->
  os (this st) = Some o ->
  getArchiveName st
  = match getLinuxOSVersionString o st with
    | (Ok q, st2) =>
        (Ok (archive_name (platform (this st)) (ssl_set (ssl (this st)))
               (arch (this st)) (Some q) (version (this st))), st2)
    | (Throw e, st2) => (Throw e, st2)
    end.
Proof.
  intros Hq Hos. rewrite getArchiveName_unfold, Hq.
  unfold load_os, bind, self, ret. rewrite Hos. rewrite Hos. reflexivity.
Qed.

Lemma getDownloadUrl_result (st : State) (name : string) :
  fst (getArchiveName st) = Ok name ->
  fst (getDownloadUrl st)
  = Ok ("https://downloads.mongodb.org/" ++ platform (this st) ++ "/" ++ name).
Proof.
  intros Hrun.
  pose proof (getArchiveName_step st) as ((Hp & _) & _).
  unfold getDownloadUrl, bind, self, ret.
  destruct (getArchiveName st) as [[n|e] st']; cbn [fst snd] in *; [|discriminate].
  inversion Hrun; subst. rewrite <- Hp. reflexivity.
Qed.

Lemma call_unqualified (c : Call) (st : State) :
  qualified (this st) = false -> call c st = st.
Proof.
  intros Hq. destruct c; cbn [call]; rewrite ?getDownloadUrl_state;
    rewrite (getArchiveName_unqualified st Hq); reflexivity.
Qed.

(** X4: with a Raspbian descriptor and the architecture "x64" every raw
    platform is accepted, also one that is otherwise unsupported; the
    archive is the source archive mongodb-src[-ssl]-r{version}.tar.gz,
    without architecture segment, the URL lies under /src/, and neither
    getos nor the console is used. *)
Theorem raspbian_gets_source_archive (opts : MongoBinaryDownloadUrlOpts)
    (o : OS) (h : Host) :
  opts_os opts = Some o ->
  dist o = "Raspbian" ->
  opts_arch opts = "x64" ->
  construct_and_call opts getArchiveName h
  = (Ok ("mongodb-src" ++ ssl_marker (opts_ssl opts)
         ++ "-r" ++ opts_version opts ++ ".tar.gz"), h)
  /\ construct_and_call opts getDownloadUrl h
     = (Ok ("https://downloads.mongodb.org/src/mongodb-src"
            ++ ssl_marker (opts_ssl opts)
            ++ "-r" ++ opts_version opts ++ ".tar.gz"), h).
Proof.
  intros Hos Hdist Harch.
  assert (constructor opts
          = Ok (mkInstance "src" "x86_64" (opts_ssl opts) (opts_version opts)
                  (opts_os opts))) as Hctor.
  { unfold constructor, translatePlatform, isRaspbian.
    rewrite Hos, Hdist, Harch. reflexivity. }
  assert (getArchiveName
            (mkState (mkInstance "src" "x86_64" (opts_ssl opts)
                        (opts_version opts) (opts_os opts)) h)
          = (Ok ("mongodb-src" ++ ssl_marker (opts_ssl opts)
                 ++ "-r" ++ opts_version opts ++ ".tar.gz"),
             mkState (mkInstance "src" "x86_64" (opts_ssl opts)
                        (opts_version opts) (opts_os opts)) h)) as Hname.
  { rewrite getArchiveName_unqualified by reflexivity.
    unfold archive_name, ssl_marker. cbn [this platform ssl arch version].
    destruct (ssl_set (opts_ssl opts)); reflexivity. }
  unfold construct_and_call. rewrite Hctor. split.
  - rewrite Hname. reflexivity.
  - unfold getDownloadUrl, bind, self, ret. rewrite Hname. reflexivity.
Qed.

Lemma raspbian_gets_source_archive_witness :
  construct_and_call
    (mkOpts "4.0.0" "irix" "x64" (Some true) (Some (mkOS "Raspbian" (Some "9"))))
    getDownloadUrl failing_host
  = (Ok "https://downloads.mongodb.org/src/mongodb-src-ssl-r4.0.0.tar.gz",
     failing_host).
Proof.
  exact (proj2 (raspbian_gets_source_archive
                  (mkOpts "4.0.0" "irix" "x64" (Some true)
                     (Some (mkOS "Raspbian" (Some "9"))))
                  (mkOS "Raspbian" (Some "9")) failing_host
                  eq_refl eq_refl eq_refl)).
Defined.

(** X5: on linux or "elementary OS" with the architecture "ia32" and no
    Raspbian descriptor, the archive is mongodb-linux[-ssl]-i686-{version}.tgz
    whatever the descriptor is, and neither getos nor the console is
    used. *)
Theorem linux_ia32_ignores_descriptor (opts : MongoBinaryDownloadUrlOpts)
    (h : Host) :
  opts_platform opts = "linux" \/ opts_platform opts = "elementary OS" ->
  opts_arch opts = "ia32" ->
  isRaspbian (opts_os opts) = false ->
  construct_and_call opts getArchiveName h
  = (Ok ("mongodb-linux" ++ ssl_marker (opts_ssl opts)
         ++ "-i686-" ++ opts_version opts ++ ".tgz"), h).
Proof.
  intros Hplat Harch Hrasp.
  assert (constructor opts
          = Ok (mkInstance "linux" "i686" (opts_ssl opts) (opts_version opts)
                  (opts_os opts))) as Hctor.
  { unfold constructor, translatePlatform. rewrite Hrasp, Harch.
    destruct Hplat as [E|E]; rewrite E; reflexivity. }
  unfold construct_and_call. rewrite Hctor.
  rewrite getArchiveName_unqualified by reflexivity.
  unfold archive_name, ssl_marker. cbn [this platform ssl arch version host].
  destruct (ssl_set (opts_ssl opts)); reflexivity.
Qed.

Lemma linux_ia32_ignores_descriptor_witness :
  construct_and_call
    (mkOpts "4.0.0" "linux" "ia32" None (Some (mkOS "SUSE Linux" None)))
    getArchiveName failing_host
  = (Ok "mongodb-linux-i686-4.0.0.tgz", failing_host).
Proof.
  apply (linux_ia32_ignores_descriptor
           (mkOpts "4.0.0" "linux" "ia32" None (Some (mkOS "SUSE Linux" None)))
           failing_host); [left; reflexivity | reflexivity | reflexivity].
Defined.

Lemma run_unqualified (cs : list Call) (st : State) :
  qualified (this st) = false -> run cs st = st.
Proof.
  intros Hq.
  induction cs as [|c cs IH]; cbn [run fold_left]; [reflexivity|].
  rewrite (call_unqualified c st Hq). exact IH.
Qed.

(** X6: on an instance whose platform is not linux, or whose architecture
    is i686, no sequence of calls changes anything: the instance, the
    console and the count of getos calls stay as they were. *)
Theorem calls_without_qualifier_change_nothing (st : State) (cs : list Call) :
  platform (this st) <> "linux" \/ arch (this st) = "i686" ->
  run cs st = st.
Proof.
  intros Hq. apply qualified_false_iff in Hq.
  exact (run_unqualified cs st Hq).
Qed.

Lemma calls_without_qualifier_change_nothing_witness :
  run [CallGetDownloadUrl; CallGetArchiveName]
      (mkState (mkInstance "osx" "x86_64" None "4.0.0" None) failing_host)
  = mkState (mkInstance "osx" "x86_64" None "4.0.0" None) failing_host.
Proof.
  apply calls_without_qualifier_change_nothing. left. discriminate.
Defined.

(** ** The descriptor reported by getos *)

(** The qualifier depends on the descriptor only, not on the instance or
    the host. *)
Lemma getLinuxOSVersionString_value (o : OS) (st st' : State) :
  fst (getLinuxOSVersionString o st) = fst (getLinuxOSVersionString o st').
Proof.
  rewrite !getLinuxOSVersionString_dispatch.
  destruct (classify (dist o)); try reflexivity.
  destruct (getSuseVersionString o); reflexivity.
Qed.

(** X7: on a linux instance other than i686 without descriptor, when getos
    reports a descriptor the call gives the result it gives on the instance
    that holds this descriptor; the descriptor is stored and getos has been
    called once. *)
Theorem probed_descriptor_as_supplied (t : MongoBinaryDownloadUrl) (h : Host)
    (o : OS) :
  platform t = "linux" -> arch t <> "i686" ->
  os t = None ->
  getos_reply h (getos_calls h) = Ok o ->
  fst (getArchiveName (mkState t h))
  = fst (getArchiveName (mkState (with_os t o) h))
  /\ fst (getDownloadUrl (mkState t h))
     = fst (getDownloadUrl (mkState (with_os t o) h))
  /\ this (snd (getArchiveName (mkState t h))) = with_os t o
  /\ getos_calls (host (snd (getArchiveName (mkState t h)))) = S (getos_calls h).
Proof.
  intros Hp Ha Hos Hreply.
  pose proof (proj2 (qualified_true_iff t) (conj Hp Ha)) as Hq.
  assert (load_os (mkState t h) = (Ok tt, mkState (with_os t o) (probed h))) as Hload.
  { unfold load_os, bind, self, getos, set_os. cbn [this host].
    rewrite Hos. cbn [this host]. rewrite Hreply. reflexivity. }
  pose proof (getLinuxOSVersionString_value o
                (mkState (with_os t o) (probed h)) (mkState (with_os t o) h)) as Hval.
  pose proof (getLinuxOSVersionString_frame o (mkState (with_os t o) (probed h)))
    as (Hthis & Hcalls & _).
  assert (getArchiveName (mkState t h)
          = match getLinuxOSVersionString o (mkState (with_os t o) (probed h)) with
            | (Ok q, st2) =>
                (Ok (archive_name (platform t) (ssl_set (ssl t)) (arch t) (Some q)
                       (version t)), st2)
            | (Throw e, st2) => (Throw e, st2)
            end) as Hrun.
  { rewrite getArchiveName_unfold. cbn [this]. rewrite Hq, Hload. reflexivity. }
  assert (fst (getArchiveName (mkState t h))
          = fst (getArchiveName (mkState (with_os t o) h))) as Hsame.
  { rewrite Hrun.
    rewrite (getArchiveName_loaded (mkState (with_os t o) h) o Hq eq_refl).
    cbn [this with_os platform arch ssl version].
    destruct (getLinuxOSVersionString o (mkState (with_os t o) (probed h)))
      as [[q|e] st2];
      destruct (getLinuxOSVersionString o (mkState (with_os t o) h))
        as [[q'|e'] st2']; cbn [fst] in *; congruence. }
  split; [exact Hsame|]. split.
  { unfold getDownloadUrl, bind, self, ret.
    pose proof (getArchiveName_step (mkState t h)) as ((Hp1 & _) & _).
    pose proof (getArchiveName_step (mkState (with_os t o) h)) as ((Hp2 & _) & _).
    destruct (getArchiveName (mkState t h)) as [[n|e] st1];
      destruct (getArchiveName (mkState (with_os t o) h)) as [[n'|e'] st1'];
      cbn [fst snd this with_os platform] in *; congruence. }
  rewrite Hrun.
  destruct (getLinuxOSVersionString o (mkState (with_os t o) (probed h)))
    as [[q|e] st2]; cbn [snd] in *; split; assumption.
Qed.

Lemma probed_descriptor_as_supplied_witness :
  fst (getArchiveName
         (mkState (mkInstance "linux" "x86_64" None "4.0.0" None)
                  (host_reporting (mkOS "Ubuntu" (Some "16.04")))))
  = fst (getArchiveName
           (mkState (mkInstance "linux" "x86_64" None "4.0.0"
                       (Some (mkOS "Ubuntu" (Some "16.04"))))
                    (host_reporting (mkOS "Ubuntu" (Some "16.04"))))).
Proof.
  refine (proj1 (probed_descriptor_as_supplied
                   (mkInstance "linux" "x86_64" None "4.0.0" None)
                   (host_reporting (mkOS "Ubuntu" (Some "16.04")))
                   (mkOS "Ubuntu" (Some "16.04")) eq_refl _ eq_refl eq_refl)).
  discriminate.
Defined.

(** X8: on a linux instance other than i686 without descriptor, when getos
    fails both calls throw the value getos failed with, unchanged; the
    instance and the console stay as they were and getos has been called
    once. *)
Theorem probe_failure_is_rethrown (t : MongoBinaryDownloadUrl) (h : Host)
    (e : exn) :
  platform t = "linux" -> arch t <> "i686" ->
  os t = None ->
  getos_reply h (getos_calls h) = Throw e ->
  getArchiveName (mkState t h) = (Throw e, mkState t (probed h))
  /\ getDownloadUrl (mkState t h) = (Throw e, mkState t (probed h)).
Proof.
  intros Hp Ha Hos Hreply.
  pose proof (proj2 (qualified_true_iff t) (conj Hp Ha)) as Hq.
  assert (getArchiveName (mkState t h) = (Throw e, mkState t (probed h))) as Hrun.
  { rewrite getArchiveName_unfold. cbn [this]. rewrite Hq.
    unfold load_os, bind, self, getos. cbn [this host].
    rewrite Hos. cbn [this host]. rewrite Hreply. reflexivity. }
  split; [exact Hrun|].
  unfold getDownloadUrl, bind. rewrite Hrun. reflexivity.
Qed.

Lemma probe_failure_is_rethrown_witness :
  getDownloadUrl (mkState (mkInstance "linux" "x86_64" None "4.0.0" None) failing_host)
  = (Throw (Rejection "getos failed"),
     mkState (mkInstance "linux" "x86_64" None "4.0.0" None) (probed failing_host)).
Proof.
  refine (proj2 (probe_failure_is_rethrown
                   (mkInstance "linux" "x86_64" None "4.0.0" None) failing_host
                   (Rejection "getos failed") eq_refl _ eq_refl eq_refl)).
  discriminate.
Defined.

(** ** Repeated calls *)

Lemma instance_eq (a b : MongoBinaryDownloadUrl) :
  same_settings a b -> os a = os b -> a = b.
Proof.
  destruct a, b. unfold same_settings. cbn.
  intros (? & ? & ? & ?) ?. congruence.
Qed.

(** Once the descriptor is there, a sequence of calls leaves the instance
    as it is. *)
Lemma run_loaded_instance (cs : list Call) (st : State) (o : OS) :
  os (this st) = Some o -> this (run cs st) = this st.
Proof.
  intros Hos.
  pose proof (run_evolves cs _ _ (evolves_refl st))
    as (Hset & _ & _ & [(Hsame & _)|(Hnone & _)]); [|congruence].
  symmetry. apply instance_eq; [exact Hset | congruence].
Qed.

(** After a call that returned with a qualifier, the descriptor is
    there. *)
Lemma getArchiveName_Ok_loaded (st : State) (name : string) :
  qualified (this st) = true ->
  fst (getArchiveName st) = Ok name ->
  exists o q,
    os (this (snd (getArchiveName st))) = Some o
    /\ (forall st', fst (getLinuxOSVersionString o st') = Ok q)
    /\ name = archive_name (platform (this st)) (ssl_set (ssl (this st)))
                (arch (this st)) (Some q) (version (this st)).
Proof.
  intros Hq. rewrite getArchiveName_unfold, Hq.
  destruct (load_os st) as [[[]|e] st1]; [|discriminate].
  destruct (os (this st1)) as [o|] eqn:Hos; [|discriminate].
  pose proof (getLinuxOSVersionString_frame o st1) as (Hthis & _).
  pose proof (fun st' => getLinuxOSVersionString_value o st' st1) as Hval.
  destruct (getLinuxOSVersionString o st1) as [[q|e] st2]; [|discriminate].
  cbn [fst snd] in *. intros H; inversion H; subst.
  exists o, q. split; [rewrite Hthis; exact Hos|]. split; [exact Hval|reflexivity].
Qed.

(** X9: once a call of getArchiveName has returned a name, every later
    call on the instance returns the same name, getDownloadUrl returns the
    URL of that name, and getos is not called again. *)
Theorem later_calls_return_the_same_name (st : State) (name : string)
    (cs : list Call) :
  fst (getArchiveName st) = Ok name ->
  fst (getArchiveName (run cs (snd (getArchiveName st)))) = Ok name
  /\ fst (getDownloadUrl (run cs (snd (getArchiveName st))))
     = Ok ("https://downloads.mongodb.org/" ++ platform (this st) ++ "/" ++ name)
  /\ getos_calls (host (run cs (snd (getArchiveName st))))
     = getos_calls (host (snd (getArchiveName st))).
Proof.
  intros Hrun.
  pose proof (getArchiveName_step st) as (Hset & _).
  assert (fst (getArchiveName (run cs (snd (getArchiveName st)))) = Ok name
          /\ platform (this (run cs (snd (getArchiveName st)))) = platform (this st)
          /\ getos_calls (host (run cs (snd (getArchiveName st))))
             = getos_calls (host (snd (getArchiveName st)))) as (Hagain & Hplat & Hcalls).
  { destruct (qualified (this st)) eqn:Hq.
    - destruct (getArchiveName_Ok_loaded st name Hq Hrun) as (o & q & Hos & Hval & Hname).
      pose proof (run_loaded_instance cs _ o Hos) as Hthis.
      pose proof (run_evolves cs _ _ (evolves_refl (snd (getArchiveName st))))
        as (_ & _ & _ & [(_ & _ & Hfixed)|(Hnone & _)]); [|congruence].
      assert (qualified (this (snd (getArchiveName st))) = true) as Hq'.
      { unfold qualified in *. destruct Hset as (Hp & Ha & _).
        rewrite <- Hp, <- Ha. exact Hq. }
      split.
      + rewrite (getArchiveName_loaded _ o); [|rewrite Hthis; exact Hq'
                                               |rewrite Hthis; exact Hos].
        pose proof (Hval (run cs (snd (getArchiveName st)))) as Hv.
        destruct (getLinuxOSVersionString o (run cs (snd (getArchiveName st))))
          as [[q'|e] st2]; cbn [fst] in *; [|discriminate].
        inversion Hv; subst q'. rewrite Hthis, Hname.
        destruct Hset as (Hp & Ha & Hs & Hv'). rewrite Hp, Ha, Hs, Hv'.
        reflexivity.
      + split; [rewrite Hthis; symmetry; apply Hset|].
        apply Hfixed. congruence.
    - pose proof (getArchiveName_unqualified st Hq) as Hst.
      rewrite Hst in *. cbn [fst snd] in *.
      rewrite (run_unqualified cs st Hq).
      rewrite Hst. cbn [fst]. repeat split; [exact Hrun]. }
  split; [exact Hagain|]. split; [|exact Hcalls].
  rewrite (getDownloadUrl_result _ name Hagain), Hplat. reflexivity.
Qed.

Lemma later_calls_return_the_same_name_witness :
  fst (getArchiveName
         (run [CallGetDownloadUrl; CallGetArchiveName]
              (snd (getArchiveName
                      (mkState (mkInstance "linux" "x86_64" None "4.0.0" None)
                               (host_reporting (mkOS "Ubuntu" (Some "16.04"))))))))
  = Ok "mongodb-linux-x86_64-ubuntu1604-4.0.0.tgz".
Proof.
  exact (proj1 (later_calls_return_the_same_name
                  (mkState (mkInstance "linux" "x86_64" None "4.0.0" None)
                           (host_reporting (mkOS "Ubuntu" (Some "16.04"))))
                  "mongodb-linux-x86_64-ubuntu1604-4.0.0.tgz"
                  [CallGetDownloadUrl; CallGetArchiveName] eq_refl)).
Defined.

(** ** The qualifiers *)

Ltac pick_member :=
  cbn [In]; solve [repeat (first [left; reflexivity | right])].

(** X10: whenever the qualifier computation returns, the qualifier is one
    of fourteen strings: four for Ubuntu, two for Suse, four for RHEL and
    Fedora, three for Debian, and the empty one. *)
Theorem qualifier_is_one_of_fourteen (o : OS) (st st' : State) (q : string) :
  getLinuxOSVersionString o st = (Ok q, st') -> In q qualifiers.
Proof.
  rewrite getLinuxOSVersionString_dispatch. unfold qualifiers.
  destruct (classify (dist o)).
  - intros H; inversion H; subst. unfold getUbuntuVersionString.
    destruct (strict_eq (release o) "12.04"); [pick_member|].
    destruct (strict_eq (release o) "14.04"); [pick_member|].
    destruct (strict_eq (release o) "14.10"); [pick_member|].
    destruct (int_eq _ 14); [pick_member|].
    destruct (strict_eq (release o) "16.04"); [pick_member|].
    destruct (int_eq _ 16); pick_member.
  - intros H; inversion H; subst. pick_member.
  - unfold getSuseVersionString, match_11_or_12.
    destruct (release o) as [r|]; [|discriminate].
    destruct (startsWith "11" r); [intros H; inversion H; subst; pick_member|].
    destruct (startsWith "12" r); intros H; inversion H; subst; pick_member.
  - intros H; inversion H; subst. unfold getRhelVersionString.
    destruct (truthy (release o)); [|pick_member].
    destruct (startsWith "7" _); [pick_member|].
    destruct (startsWith "6" _); [pick_member|].
    destruct (startsWith "5" _); pick_member.
  - intros H; inversion H; subst. unfold getFedoraVersionString.
    destruct (int_gt _ 18); [pick_member|].
    destruct (int_lt _ 19 && int_ge _ 12); [pick_member|].
    destruct (int_lt _ 12 && int_ge _ 6); pick_member.
  - intros H; inversion H; subst. unfold getDebianVersionString.
    destruct (ge _ (literal 81 (-1))); [pick_member|].
    destruct (ge _ (literal 71 (-1))); pick_member.
  - intros H; inversion H; subst. pick_member.
  - intros H; inversion H; subst. pick_member.
Qed.

Lemma qualifier_is_one_of_fourteen_witness :
  In "rhel62" qualifiers.
Proof.
  exact (qualifier_is_one_of_fourteen
           (mkOS "CentOS" (Some "6.9"))
           (mkState (mkInstance "linux" "x86_64" None "4.0.0" None) failing_host)
           (mkState (mkInstance "linux" "x86_64" None "4.0.0" None) failing_host)
           "rhel62" eq_refl).
Defined.

Lemma startsWith_one_char (a b : ascii) (s : string) :
  a <> b ->
  startsWith (String a EmptyString) s = true ->
  startsWith (String b EmptyString) s = false.
Proof.
  intros Hab. unfold startsWith.
  destruct s as [|c s]; cbn [String.prefix]; [discriminate|].
  destruct (ascii_dec a c) as [Ea|Na]; [|discriminate].
  destruct (ascii_dec b c) as [Eb|Nb]; [congruence | reflexivity].
Qed.

Lemma startsWith_11_not_12 (s : string) :
  startsWith "11" s = true -> startsWith "12" s = false.
Proof.
  unfold startsWith.
  destruct s as [|a [|b s]]; cbn [String.prefix]; try discriminate.
  - destruct (ascii_dec "1" a); discriminate.
  - destruct (ascii_dec "1" a) as [Ea|Na]; [|discriminate].
    destruct (ascii_dec "1" b) as [Eb|Nb]; [|discriminate].
    destruct (ascii_dec "2" b) as [Ec|Nc]; [|reflexivity].
    subst b. discriminate.
Qed.

(** X11: for a descriptor classified as RHEL/CentOS/Scientific with a
    release, the qualifier is "rhel70" when the release begins with 7,
    "rhel62" when it begins with 6 and "rhel55" when it begins with 5. *)
Theorem rhel_matched_release (o : OS) (r : string) (st : State) :
  classify (dist o) = Rhel ->
  release o = Some r ->
  (startsWith "7" r = true ->
   getLinuxOSVersionString o st = (Ok "rhel70", st))
  /\ (startsWith "6" r = true ->
      getLinuxOSVersionString o st = (Ok "rhel62", st))
  /\ (startsWith "5" r = true ->
      getLinuxOSVersionString o st = (Ok "rhel55", st)).
Proof.
  intros Hc Hr. rewrite getLinuxOSVersionString_dispatch, Hc.
  unfold getRhelVersionString. rewrite Hr. cbn [ToString].
  destruct r as [|c r]; [repeat split; discriminate|].
  cbn [truthy].
  repeat split; intros H.
  - rewrite H. reflexivity.
  - rewrite (startsWith_one_char "6" "7" _ ltac:(discriminate) H), H.
    reflexivity.
  - rewrite (startsWith_one_char "5" "7" _ ltac:(discriminate) H),
      (startsWith_one_char "5" "6" _ ltac:(discriminate) H), H.
    reflexivity.
Qed.

Lemma rhel_matched_release_witness :
  getLinuxOSVersionString (mkOS "Scientific Linux" (Some "7.4"))
    (mkState (mkInstance "linux" "x86_64" None "4.0.0" None) failing_host)
  = (Ok "rhel70", mkState (mkInstance "linux" "x86_64" None "4.0.0" None) failing_host).
Proof.
  exact (proj1 (rhel_matched_release (mkOS "Scientific Linux" (Some "7.4")) "7.4"
                  (mkState (mkInstance "linux" "x86_64" None "4.0.0" None) failing_host)
                  eq_refl eq_refl) eq_refl).
Defined.

(** X12: for a descriptor classified as Fedora whose release parses to
    the integer [z], the qualifier is "rhel70" when [z] is above 18,
    "rhel62" when it is from 12 to 18 and "rhel55" when it is from 6 to
    11. *)
Theorem fedora_matched_release (o : OS) (z : Z) (st : State) :
  classify (dist o) = Fedora ->
  parseInt (ToString (release o)) = Some z ->
  (18 < z -> getLinuxOSVersionString o st = (Ok "rhel70", st))
  /\ (12 <= z <= 18 -> getLinuxOSVersionString o st = (Ok "rhel62", st))
  /\ (6 <= z <= 11 -> getLinuxOSVersionString o st = (Ok "rhel55", st)).
Proof.
  intros Hc Hz. rewrite getLinuxOSVersionString_dispatch, Hc.
  unfold getFedoraVersionString. rewrite Hz. unfold int_gt, int_lt, int_ge.
  destruct (Z.ltb_spec 18 z), (Z.ltb_spec z 19), (Z.leb_spec 12 z),
    (Z.ltb_spec z 12), (Z.leb_spec 6 z); cbn [andb];
    repeat split; intros; try lia; reflexivity.
Qed.

Lemma fedora_matched_release_witness :
  getLinuxOSVersionString (mkOS "Fedora" (Some "28"))
    (mkState (mkInstance "linux" "x86_64" None "4.0.0" None) failing_host)
  = (Ok "rhel70", mkState (mkInstance "linux" "x86_64" None "4.0.0" None) failing_host).
Proof.
  apply (proj1 (fedora_matched_release (mkOS "Fedora" (Some "28")) 28
                  (mkState (mkInstance "linux" "x86_64" None "4.0.0" None) failing_host)
                  eq_refl eq_refl)).
  lia.
Defined.

(** X13: for a descriptor classified as Suse that has a release, the
    qualifier computation returns and changes nothing: "suse11" when the
    release begins with 11, "suse12" when it begins with 12, and the empty
    qualifier otherwise. *)
Theorem suse_with_release (o : OS) (r : string) (st : State) :
  classify (dist o) = Suse ->
  release o = Some r ->
  exists q,
    getLinuxOSVersionString o st = (Ok q, st)
    /\ (startsWith "11" r = true -> q = "suse11")
    /\ (startsWith "12" r = true -> q = "suse12")
    /\ (startsWith "11" r = false -> startsWith "12" r = false ->
        q = EmptyString).
Proof.
  intros Hc Hr. rewrite getLinuxOSVersionString_dispatch, Hc.
  destruct o as [d rel]. cbn [release] in Hr. subst rel.
  rewrite getSuseVersionString_with_release.
  eexists. split; [reflexivity|].
  repeat split.
  - intros H. rewrite H. reflexivity.
  - intros H. destruct (startsWith "11" r) eqn:H11.
    + apply startsWith_11_not_12 in H11. congruence.
    + rewrite H. reflexivity.
  - intros H11 H12. rewrite H11, H12. reflexivity.
Qed.

Lemma suse_with_release_witness :
  exists q,
    getLinuxOSVersionString (mkOS "openSUSE" (Some "12.3"))
      (mkState (mkInstance "linux" "x86_64" None "4.0.0" None) failing_host)
    = (Ok q, mkState (mkInstance "linux" "x86_64" None "4.0.0" None) failing_host)
    /\ q = "suse12".
Proof.
  destruct (suse_with_release (mkOS "openSUSE" (Some "12.3")) "12.3"
              (mkState (mkInstance "linux" "x86_64" None "4.0.0" None) failing_host)
              eq_refl eq_refl)
    as (q & Hrun & _ & H12 & _).
  exists q. split; [exact Hrun | exact (H12 eq_refl)].
Defined.

(** X14: on a linux instance other than i686 whose descriptor is
    classified as elementary OS or as Mint, the archive carries the
    qualifier "ubuntu1404" whatever the release is, and the call changes
    nothing. *)
Theorem elementary_and_mint_get_ubuntu1404 (st : State) (o : OS) :
  platform (this st) = "linux" -> arch (this st) <> "i686" ->
  os (this st) = Some o ->
  classify (dist o) = ElementaryOS \/ classify (dist o) = Mint ->
  getLinuxOSVersionString o st = (Ok "ubuntu1404", st)
  /\ getArchiveName st
     = (Ok ("mongodb-linux" ++ ssl_marker (ssl (this st)) ++ "-" ++ arch (this st)
            ++ "-ubuntu1404-" ++ version (this st) ++ ".tgz"), st).
Proof.
  intros Hp Ha Hos Hc.
  assert (getLinuxOSVersionString o st = (Ok "ubuntu1404", st)) as Hrun.
  { rewrite getLinuxOSVersionString_dispatch.
    destruct Hc as [Hc|Hc]; rewrite Hc; reflexivity. }
  split; [exact Hrun|].
  rewrite (getArchiveName_loaded st o (proj2 (qualified_true_iff _) (conj Hp Ha)) Hos).
  rewrite Hrun. unfold archive_name, ssl_marker. rewrite Hp.
  cbn [String.eqb Ascii.eqb isEmpty].
  destruct (ssl_set (ssl (this st))); cbn [append]; rewrite ?append_assoc;
    reflexivity.
Qed.

Lemma elementary_and_mint_get_ubuntu1404_witness :
  getArchiveName
    (mkState (mkInstance "linux" "x86_64" None "4.0.0"
                (Some (mkOS "Linux Mint" (Some "19"))))
             failing_host)
  = (Ok "mongodb-linux-x86_64-ubuntu1404-4.0.0.tgz",
     mkState (mkInstance "linux" "x86_64" None "4.0.0"
                (Some (mkOS "Linux Mint" (Some "19"))))
             failing_host).
Proof.
  refine (proj2 (elementary_and_mint_get_ubuntu1404
                   (mkState (mkInstance "linux" "x86_64" None "4.0.0"
                               (Some (mkOS "Linux Mint" (Some "19"))))
                            failing_host)
                   (mkOS "Linux Mint" (Some "19")) eq_refl _ eq_refl _)).
  - discriminate.
  - right. reflexivity.
Defined.

(** ** Letter case of the distribution name *)

Lemma toLowerAscii_idempotent (c : ascii) :
  toLowerAscii (toLowerAscii c) = toLowerAscii c.
Proof.
  destruct c as [[] [] [] [] [] [] [] []]; reflexivity.
Qed.

Lemma startsWithIgnoreCase_fold_case (p s : string) :
  startsWithIgnoreCase p (fold_case s) = startsWithIgnoreCase p s.
Proof.
  revert s. induction p as [|a p IH]; intros s; [destruct s; reflexivity|].
  destruct s as [|b s]; [reflexivity|].
  cbn [fold_case startsWithIgnoreCase].
  rewrite toLowerAscii_idempotent, IH. reflexivity.
Qed.

Lemma testIgnoreCase_fold_case (p s : string) :
  testIgnoreCase p (fold_case s) = testIgnoreCase p s.
Proof.
  induction s as [|b s IH].
  - reflexivity.
  - change (testIgnoreCase p (fold_case (String b s)))
      with (startsWithIgnoreCase p (fold_case (String b s))
            || testIgnoreCase p (fold_case s)).
    change (testIgnoreCase p (String b s))
      with (startsWithIgnoreCase p (String b s) || testIgnoreCase p s).
    rewrite startsWithIgnoreCase_fold_case, IH. reflexivity.
Qed.

Lemma classify_fold_case (d : string) : classify (fold_case d) = classify d.
Proof.
  unfold classify, precedence, matches_any. cbn [find existsb fst snd].
  rewrite !testIgnoreCase_fold_case. reflexivity.
Qed.

(** X15: two descriptors with the same release whose distribution names
    differ in the case of their letters only are classified alike and get
    the same qualifier, or the same error. *)
Theorem qualifier_ignores_letter_case (d d' : string) (r : option string)
    (st : State) :
  fold_case d = fold_case d' ->
  classify d = classify d'
  /\ fst (getLinuxOSVersionString (mkOS d r) st)
     = fst (getLinuxOSVersionString (mkOS d' r) st).
Proof.
  intros Hfold.
  assert (classify d = classify d') as Hc
    by (rewrite <- (classify_fold_case d), <- (classify_fold_case d'), Hfold;
        reflexivity).
  split; [exact Hc|].
  rewrite !getLinuxOSVersionString_dispatch. cbn [dist]. rewrite Hc.
  destruct (classify d'); reflexivity.
Qed.

Lemma qualifier_ignores_letter_case_witness :
  classify "UBUNTU" = classify "ubuntu"
  /\ fst (getLinuxOSVersionString (mkOS "UBUNTU" (Some "16.04"))
            (mkState (mkInstance "linux" "x86_64" None "4.0.0" None) failing_host))
     = fst (getLinuxOSVersionString (mkOS "ubuntu" (Some "16.04"))
              (mkState (mkInstance "linux" "x86_64" None "4.0.0" None) failing_host)).
Proof.
  exact (qualifier_ignores_letter_case "UBUNTU" "ubuntu" (Some "16.04")
           (mkState (mkInstance "linux" "x86_64" None "4.0.0" None) failing_host)
           eq_refl).
Defined.

(** ** The console *)

Lemma call_unknown_distribution (c : Call) (st : State) (o : OS) :
  platform (this st) = "linux" -> arch (this st) <> "i686" ->
  os (this st) = Some o ->
  classify (dist o) = Unknown ->
  call c st = warned (unknown_distro_warning (dist o)) st.
Proof.
  intros Hp Ha Hos Hc.
  assert (snd (getArchiveName st) = warned (unknown_distro_warning (dist o)) st) as H.
  { rewrite (getArchiveName_loaded st o (proj2 (qualified_true_iff _) (conj Hp Ha)) Hos).
    rewrite getLinuxOSVersionString_dispatch, Hc. reflexivity. }
  destruct c; cbn [call]; rewrite ?getDownloadUrl_state; exact H.
Qed.

(** X16: on a linux instance other than i686 whose descriptor names an
    unknown distribution, every call writes the warning again: after a
    sequence of calls the console holds one more warning per call, and the
    instance and the count of getos calls are as before. *)
Theorem unknown_distribution_warns_on_every_call (cs : list Call) (st : State)
    (o : OS) :
  platform (this st) = "linux" -> arch (this st) <> "i686" ->
  os (this st) = Some o ->
  classify (dist o) = Unknown ->
  console (host (run cs st))
  = (console (host st)
     ++ repeat (unknown_distro_warning (dist o)) (List.length cs))%list
  /\ this (run cs st) = this st
  /\ getos_calls (host (run cs st)) = getos_calls (host st).
Proof.
  revert st. induction cs as [|c cs IH]; intros st Hp Ha Hos Hc.
  - cbn [run fold_left List.length repeat]. rewrite app_nil_r. repeat split.
  - cbn [run fold_left]. rewrite (call_unknown_distribution c st o Hp Ha Hos Hc).
    destruct (IH (warned (unknown_distro_warning (dist o)) st) Hp Ha Hos Hc)
      as (Hcon & Hthis & Hcalls).
    unfold run in *. rewrite Hcon, Hthis, Hcalls.
    cbn [warned console_warn snd this host console getos_calls List.length repeat].
    rewrite <- app_assoc. repeat split.
Qed.

Lemma unknown_distribution_warns_on_every_call_witness :
  console
    (host (run [CallGetArchiveName; CallGetDownloadUrl]
               (mkState (mkInstance "linux" "x86_64" None "4.0.0"
                           (Some (mkOS "Arch Linux" None)))
                        failing_host)))
  = ["Unknown linux distro Arch Linux, falling back to legacy MongoDB build";
     "Unknown linux distro Arch Linux, falling back to legacy MongoDB build"]%list.
Proof.
  refine (proj1 (unknown_distribution_warns_on_every_call
                   [CallGetArchiveName; CallGetDownloadUrl]
                   (mkState (mkInstance "linux" "x86_64" None "4.0.0"
                               (Some (mkOS "Arch Linux" None)))
                            failing_host)
                   (mkOS "Arch Linux" None) eq_refl _ eq_refl eq_refl)).
  discriminate.
Defined.

Lemma load_os_console (st : State) :
  console (host (snd (load_os st))) = console (host st).
Proof.
  destruct (load_os_cases st)
    as [(o & _ & Hrun)|[(_ & o & _ & Hrun)|(_ & e & _ & Hrun)]];
    rewrite Hrun; reflexivity.
Qed.

Lemma call_console (c : Call) (st : State) :
  console (host (call c st)) = console (host st)
  \/ exists d,
       console (host (call c st))
       = (console (host st) ++ [unknown_distro_warning d])%list.
Proof.
  assert (console (host (snd (getArchiveName st))) = console (host st)
          \/ exists d,
               console (host (snd (getArchiveName st)))
               = (console (host st) ++ [unknown_distro_warning d])%list) as H.
  { rewrite getArchiveName_unfold.
    destruct (qualified (this st)); [|left; reflexivity].
    pose proof (load_os_console st) as Hload.
    destruct (load_os st) as [[[]|e] st1]; cbn [snd] in Hload; [|left; exact Hload].
    destruct (os (this st1)) as [o|]; [|left; exact Hload].
    assert (console (host (snd (getLinuxOSVersionString o st1))) = console (host st1)
            \/ console (host (snd (getLinuxOSVersionString o st1)))
               = (console (host st1) ++ [unknown_distro_warning (dist o)])%list) as Hq.
    { rewrite getLinuxOSVersionString_dispatch.
      destruct (classify (dist o)); try (left; reflexivity);
        [destruct (getSuseVersionString o); left; reflexivity | right; reflexivity]. }
    rewrite Hload in Hq.
    destruct (getLinuxOSVersionString o st1) as [[q|e] st2]; cbn [snd] in *;
      (destruct Hq as [Hq|Hq]; [left; exact Hq | right; exists (dist o); exact Hq]). }
  destruct c; cbn [call]; rewrite ?getDownloadUrl_state; exact H.
Qed.

(** X17: calls never remove or alter console lines: after any sequence of
    calls the console is the former console followed by at most one new
    line per call, and every new line is the unknown-distribution
    warning. *)
Theorem console_only_gains_warnings (cs : list Call) (st : State) :
  exists lines,
    console (host (run cs st)) = (console (host st) ++ lines)%list
    /\ (List.length lines <= List.length cs)%nat
    /\ Forall (fun line => exists d, line = unknown_distro_warning d) lines.
Proof.
  revert st. induction cs as [|c cs IH]; intros st.
  - exists []. cbn [run fold_left]. rewrite app_nil_r.
    split; [reflexivity|]. split; [cbn; lia | constructor].
  - cbn [run fold_left]. destruct (IH (call c st)) as (lines & Hcon & Hlen & Hall).
    unfold run in *.
    destruct (call_console c st) as [Hc|[d Hc]].
    + exists lines. rewrite Hcon, Hc. split; [reflexivity|].
      split; [cbn [List.length]; lia | exact Hall].
    + exists (unknown_distro_warning d :: lines). rewrite Hcon, Hc.
      rewrite <- app_assoc. split; [reflexivity|].
      split; [cbn [List.length]; lia|].
      constructor; [exists d; reflexivity | exact Hall].
Qed.

(** ** A reported descriptor on which the Suse rule fails *)

(** X18: on a linux instance other than i686 without descriptor, when
    getos reports a descriptor classified as Suse that has no release, the
    call throws a TypeError after the descriptor has been stored; from
    then on every call throws the TypeError again, without calling getos
    and without changing anything. *)
Theorem reported_suse_without_release_sticks (t : MongoBinaryDownloadUrl)
    (h : Host) (o : OS) (cs : list Call) :
  platform t = "linux" -> arch t <> "i686" ->
  os t = None ->
  getos_reply h (getos_calls h) = Ok o ->
  classify (dist o) = Suse ->
  release o = None ->
  getArchiveName (mkState t h)
  = (Throw TypeError, mkState (with_os t o) (probed h))
  /\ run cs (mkState (with_os t o) (probed h))
     = mkState (with_os t o) (probed h)
  /\ getArchiveName (mkState (with_os t o) (probed h))
     = (Throw TypeError, mkState (with_os t o) (probed h))
  /\ getDownloadUrl (mkState (with_os t o) (probed h))
     = (Throw TypeError, mkState (with_os t o) (probed h)).
Proof.
  intros Hp Ha Hos Hreply Hc Hr.
  pose proof (proj2 (qualified_true_iff t) (conj Hp Ha)) as Hq.
  assert (forall st, getLinuxOSVersionString o st = (Throw TypeError, st)) as Hthrow.
  { intros st. rewrite getLinuxOSVersionString_dispatch, Hc.
    unfold getSuseVersionString. rewrite Hr. reflexivity. }
  assert (getArchiveName (mkState (with_os t o) (probed h))
          = (Throw TypeError, mkState (with_os t o) (probed h))) as Hagain.
  { rewrite (getArchiveName_loaded (mkState (with_os t o) (probed h)) o Hq eq_refl),
      Hthrow.
    reflexivity. }
  assert (getDownloadUrl (mkState (with_os t o) (probed h))
          = (Throw TypeError, mkState (with_os t o) (probed h))) as Hurl.
  { unfold getDownloadUrl, bind. rewrite Hagain. reflexivity. }
  split.
  { rewrite getArchiveName_unfold. cbn [this]. rewrite Hq.
    unfold load_os, bind, self, getos, set_os. cbn [this host].
    rewrite Hos. cbn [this host]. rewrite Hreply. cbn [this os].
    rewrite Hthrow. reflexivity. }
  split; [|split; assumption].
  induction cs as [|c cs IH]; cbn [run fold_left]; [reflexivity|].
  assert (call c (mkState (with_os t o) (probed h))
          = mkState (with_os t o) (probed h)) as Hcall
    by (destruct c; cbn [call]; [rewrite Hagain | rewrite Hurl]; reflexivity).
  rewrite Hcall. exact IH.
Qed.

Lemma reported_suse_without_release_sticks_witness :
  getArchiveName
    (mkState (mkInstance "linux" "x86_64" None "4.0.0" None)
             (host_reporting (mkOS "SUSE Linux" None)))
  = (Throw TypeError,
     mkState (with_os (mkInstance "linux" "x86_64" None "4.0.0" None)
                (mkOS "SUSE Linux" None))
             (probed (host_reporting (mkOS "SUSE Linux" None)))).
Proof.
  refine (proj1 (reported_suse_without_release_sticks
                   (mkInstance "linux" "x86_64" None "4.0.0" None)
                   (host_reporting (mkOS "SUSE Linux" None))
                   (mkOS "SUSE Linux" None) [] eq_refl _ eq_refl eq_refl
                   eq_refl eq_refl)).
  discriminate.
Defined.

(** ** The ways a call can fail *)

(** X19: getArchiveName throws only on a linux instance other than i686,
    and only in two ways: the instance has no descriptor and getos failed,
    in which case the value getos failed with is thrown, or the descriptor,
    supplied or just reported by getos, is classified as Suse and has no
    release, in which case a TypeError is thrown. *)
Theorem getArchiveName_throws_only (st : State) (e : exn) :
  fst (getArchiveName st) = Throw e ->
  platform (this st) = "linux" /\ arch (this st) <> "i686"
  /\ ((os (this st) = None
       /\ getos_reply (host st) (getos_calls (host st)) = Throw e)
      \/ (e = TypeError
          /\ exists o,
               (os (this st) = Some o
                \/ (os (this st) = None
                    /\ getos_reply (host st) (getos_calls (host st)) = Ok o))
               /\ classify (dist o) = Suse
               /\ release o = None)).
Proof.
  rewrite getArchiveName_unfold.
  destruct (qualified (this st)) eqn:Hq; [|discriminate].
  apply qualified_true_iff in Hq. destruct Hq as [Hp Ha].
  intros Hrun. split; [exact Hp|]. split; [exact Ha|].
  assert (forall o st1 st2,
            getLinuxOSVersionString o st1 = (Throw e, st2) ->
            e = TypeError /\ classify (dist o) = Suse /\ release o = None) as Hsuse.
  { intros o st1 st2. rewrite getLinuxOSVersionString_dispatch.
    destruct (classify (dist o)); try discriminate.
    unfold getSuseVersionString, match_11_or_12.
    destruct (release o) as [r|].
    - destruct (startsWith "11" r); [discriminate|].
      destruct (startsWith "12" r); discriminate.
    - intros H; inversion H; subst. repeat split. }
  destruct (load_os_cases st)
    as [(o & Hos & Hload)|[(Hos & o & Hr & Hload)|(Hos & e' & Hr & Hload)]];
    rewrite Hload in Hrun.
  - rewrite Hos in Hrun.
    destruct (getLinuxOSVersionString o st) as [[q|e'] st2] eqn:Hg; [discriminate|].
    cbn [fst] in Hrun. inversion Hrun; subst e'.
    destruct (Hsuse _ _ _ Hg) as (He & Hc & Hrel).
    right. split; [exact He|]. exists o. split; [left; exact Hos|]. split; assumption.
  - cbn [snd set_os getos this host os] in Hrun.
    match type of Hrun with
    | context [getLinuxOSVersionString o ?s] =>
        destruct (getLinuxOSVersionString o s) as [[q|e'] st2] eqn:Hg
    end; [discriminate|].
    cbn [fst] in Hrun. inversion Hrun; subst e'.
    destruct (Hsuse _ _ _ Hg) as (He & Hc & Hrel).
    right. split; [exact He|]. exists o.
    split; [right; split; assumption|]. split; assumption.
  - cbn [fst] in Hrun. inversion Hrun; subst e'.
    left. split; assumption.
Qed.

Lemma getArchiveName_throws_only_witness :
  platform (mkInstance "linux" "x86_64" None "4.0.0" None) = "linux"
  /\ arch (mkInstance "linux" "x86_64" None "4.0.0" None) <> "i686".
Proof.
  destruct (getArchiveName_throws_only
              (mkState (mkInstance "linux" "x86_64" None "4.0.0" None) failing_host)
              (Rejection "getos failed") eq_refl)
    as (Hp & Ha & _).
  split; [exact Hp | exact Ha].
Defined.

(** ** Platforms other than linux, end to end *)

Lemma getDownloadUrl_unqualified (st : State) :
  qualified (this st) = false ->
  getDownloadUrl st
  = (Ok ("https://downloads.mongodb.org/" ++ platform (this st) ++ "/"
         ++ archive_name (platform (this st)) (ssl_set (ssl (this st)))
              (arch (this st)) None (version (this st))), st).
Proof.
  intros Hq. unfold getDownloadUrl, bind, self, ret.
  rewrite (getArchiveName_unqualified st Hq). reflexivity.
Qed.

(** X20: without a Raspbian descriptor, the URL of an "x64" configuration
    is .../osx/mongodb-osx[-ssl]-x86_64-{version}.tgz for darwin,
    .../sunos5/mongodb-sunos5[-ssl]-x86_64-{version}.tgz for sunos and
    .../win32/mongodb-win32[-ssl]-x86_64-{version}.zip for win32, and the
    URL of an "ia32" configuration on win32 is
    .../win32/mongodb-win32[-ssl]-i386-{version}.zip; getos and the console
    are not used. *)
Theorem urls_off_linux (opts : MongoBinaryDownloadUrlOpts) (h : Host) :
  isRaspbian (opts_os opts) = false ->
  (opts_platform opts = "darwin" -> opts_arch opts = "x64" ->
   construct_and_call opts getDownloadUrl h
   = (Ok ("https://downloads.mongodb.org/osx/mongodb-osx"
          ++ ssl_marker (opts_ssl opts) ++ "-x86_64-" ++ opts_version opts
          ++ ".tgz"), h))
  /\ (opts_platform opts = "sunos" -> opts_arch opts = "x64" ->
      construct_and_call opts getDownloadUrl h
      = (Ok ("https://downloads.mongodb.org/sunos5/mongodb-sunos5"
             ++ ssl_marker (opts_ssl opts) ++ "-x86_64-" ++ opts_version opts
             ++ ".tgz"), h))
  /\ (opts_platform opts = "win32" -> opts_arch opts = "x64" ->
      construct_and_call opts getDownloadUrl h
      = (Ok ("https://downloads.mongodb.org/win32/mongodb-win32"
             ++ ssl_marker (opts_ssl opts) ++ "-x86_64-" ++ opts_version opts
             ++ ".zip"), h))
  /\ (opts_platform opts = "win32" -> opts_arch opts = "ia32" ->
      construct_and_call opts getDownloadUrl h
      = (Ok ("https://downloads.mongodb.org/win32/mongodb-win32"
             ++ ssl_marker (opts_ssl opts) ++ "-i386-" ++ opts_version opts
             ++ ".zip"), h)).
Proof.
  intros Hrasp.
  repeat split; intros Hp Ha; unfold construct_and_call.
  - replace (constructor opts)
      with (Ok (mkInstance "osx" "x86_64" (opts_ssl opts) (opts_version opts)
                  (opts_os opts)))
      by (unfold constructor, translatePlatform; rewrite Hrasp, Hp, Ha; reflexivity).
    rewrite getDownloadUrl_unqualified by reflexivity.
    unfold archive_name, ssl_marker. cbn [this host platform ssl arch version].
    destruct (ssl_set (opts_ssl opts)); reflexivity.
  - replace (constructor opts)
      with (Ok (mkInstance "sunos5" "x86_64" (opts_ssl opts) (opts_version opts)
                  (opts_os opts)))
      by (unfold constructor, translatePlatform; rewrite Hrasp, Hp, Ha; reflexivity).
    rewrite getDownloadUrl_unqualified by reflexivity.
    unfold archive_name, ssl_marker. cbn [this host platform ssl arch version].
    destruct (ssl_set (opts_ssl opts)); reflexivity.
  - replace (constructor opts)
      with (Ok (mkInstance "win32" "x86_64" (opts_ssl opts) (opts_version opts)
                  (opts_os opts)))
      by (unfold constructor, translatePlatform; rewrite Hrasp, Hp, Ha; reflexivity).
    rewrite getDownloadUrl_unqualified by reflexivity.
    unfold archive_name, ssl_marker. cbn [this host platform ssl arch version].
    destruct (ssl_set (opts_ssl opts)); reflexivity.
  - replace (constructor opts)
      with (Ok (mkInstance "win32" "i386" (opts_ssl opts) (opts_version opts)
                  (opts_os opts)))
      by (unfold constructor, translatePlatform; rewrite Hrasp, Hp, Ha; reflexivity).
    rewrite getDownloadUrl_unqualified by reflexivity.
    unfold archive_name, ssl_marker. cbn [this host platform ssl arch version].
    destruct (ssl_set (opts_ssl opts)); reflexivity.
Qed.

Lemma urls_off_linux_witness :
  construct_and_call (mkOpts "3.6.5" "win32" "ia32" (Some true) None)
    getDownloadUrl failing_host
  = (Ok "https://downloads.mongodb.org/win32/mongodb-win32-ssl-i386-3.6.5.zip",
     failing_host).
Proof.
  exact (proj2 (proj2 (proj2 (urls_off_linux
                  (mkOpts "3.6.5" "win32" "ia32" (Some true) None)
                  failing_host eq_refl))) eq_refl eq_refl).
Defined.
